(** * E20 simulator ([sim.py]): a shallow embedding and its properties

    The simulator is a Python script.  Python integers are unbounded, so they
    are modelled by [Z]; the bit operators [&], [|], [^], [>>], [<<] are
    [Z.land], [Z.lor], [Z.lxor], [Z.shiftr], [Z.shiftl] (both sides agree on
    negative numbers: infinite two's complement, flooring shifts) and [%]
    with a positive divisor is [Z.modulo].  The register file and the memory
    are Python lists that every function mutates in place and hands back;
    here they are threaded explicitly.  Exceptions are values of [exn] in
    the [result] monad.  Where the script leans on the interpreter (the
    digit class of [re], the limit of [int] and [str] on long numerals)
    the model follows CPython 3.11. *)

From Stdlib Require Import ZArith Lia Bool Ascii String DecimalString.
From stdpp Require Import base list.

Local Open Scope Z_scope.

(** ** Python run-time model *)

Module Py.

(** The exceptions the script can raise.  The [ValueError]s of the loader
    are kept apart by their origin. *)
Inductive exn : Type :=
| IndexError                 (* list index out of range *)
| TypeError                  (* unpacking [None] into three names *)
| ValueError_parse           (* "Can't parse line: ..." *)
| ValueError_literal         (* int(instr, 2) on a non-binary digit string *)
| ValueError_sequence        (* "Memory addresses encountered out of sequence" *)
| ValueError_capacity        (* "Program too big for memory" *)
| ValueError_digits          (* "Exceeds the limit (4300 digits) for integer
                                string conversion" *)
| SystemExit                 (* argparse leaving on a bad command line or -h *)
| OSError                    (* open() on a file that cannot be opened *)
| UnicodeDecodeError.        (* reading bytes that are not text *)

Inductive result (A : Type) : Type :=
| Ok (a : A)
| Raise (e : exn).
Arguments Ok {A} a.
Arguments Raise {A} e.

Definition bind {A B} (r : result A) (k : A -> result B) : result B :=
  match r with
  | Ok a => k a
  | Raise e => Raise e
  end.

Definition raises {A} (r : result A) : bool :=
  match r with Ok _ => false | Raise _ => true end.

Definition len (l : list Z) : Z := Z.of_nat (length l).

(** A Python subscript: a negative index counts from the end, anything
    outside [-len, len) raises [IndexError]. *)
Definition norm_index (l : list Z) (i : Z) : Z :=
  if i <? 0 then i + len l else i.

Definition in_range (l : list Z) (j : Z) : bool :=
  (0 <=? j) && (j <? len l).

(** [l[i]] *)
Definition getitem (l : list Z) (i : Z) : result Z :=
  let j := norm_index l i in
  if in_range l j then
    match l !! Z.to_nat j with
    | Some v => Ok v
    | None => Raise IndexError
    end
  else Raise IndexError.

(** [l[i] = v] *)
Definition setitem (l : list Z) (i v : Z) : result (list Z) :=
  let j := norm_index l i in
  if in_range l j then Ok (<[Z.to_nat j := v]> l) else Raise IndexError.

End Py.
Export Py.

Notation "'let*' x ':=' c1 'in' c2" := (Py.bind c1 (fun x => c2))
  (at level 10, x name, c1 at level 100, c2 at level 200).

(** ** Constants *)

Definition NUM_REGS : Z := 8.
Definition MEM_SIZE : Z := 2 ^ 13.
Definition REG_SIZE : Z := 2 ^ 16.

(** ** Helper functions of the simulator *)

(** [sign_extend_7]: the 16-bit pattern of a 7-bit two's-complement field. *)
Definition sign_extend_7 (num : Z) : Z :=
  let left_most_bit := Z.shiftr (Z.land num 64) 6 in
  if left_most_bit =? 1 then Z.lor 65408 num else num.

(** [sign_number_converter]: the signed integer a field stands for.  The sign
    test reads bit 6 whatever [bits] is, as in the source. *)
Definition sign_number_converter (num bits : Z) : Z :=
  let left_most_bit := Z.shiftr (Z.land num 64) 6 in
  if left_most_bit =? 1 then
    let bitmask := Z.shiftl 1 bits - 1 in
    - (Z.lxor num bitmask + 1)
  else num.

Definition valid_pc (pc : Z) : Z := pc mod 65536.

Definition keep_16bits (num : Z) : Z :=
  let bitmask := Z.shiftl 1 16 - 1 in
  Z.land num bitmask.

(** ** Decoded fields *)

Definition selector (instruction : Z) : Z := Z.shiftr (Z.land instruction 57344) 13.
Definition field_12_10 (instruction : Z) : Z := Z.shiftr (Z.land instruction 7168) 10.
Definition field_9_7 (instruction : Z) : Z := Z.shiftr (Z.land instruction 896) 7.
Definition field_6_4 (instruction : Z) : Z := Z.shiftr (Z.land instruction 112) 4.
Definition opcode4 (instruction : Z) : Z := Z.land instruction 15.
Definition imm7 (instruction : Z) : Z := Z.land instruction 127.
Definition imm13 (instruction : Z) : Z := Z.land instruction 8191.

(** What a step hands back: the tuple [(pc, regs, memory)], or Python's
    [None] when a function runs off its end without a [return]. *)
Definition step_value : Type := option (Z * list Z * list Z).

Definition ret (pc : Z) (regs memory : list Z) : result step_value :=
  Ok (Some (pc, regs, memory)).

(** ** The executors *)

Definition instruction_3R (instruction pc : Z) (regs memory : list Z)
  : result step_value :=
  let regSrcA := field_12_10 instruction in
  let regSrcB := field_9_7 instruction in
  let regDst := field_6_4 instruction in
  let opcode := opcode4 instruction in
  if opcode =? 8 then
    let* pc' := getitem regs regSrcA in
    ret (valid_pc pc') regs memory
  else if regDst =? 0 then
    ret (valid_pc (pc + 1)) regs memory
  else
    let* regs' :=
      (if opcode =? 0 then
         let* a := getitem regs regSrcA in let* b := getitem regs regSrcB in
         setitem regs regDst (keep_16bits (a + b))
       else if opcode =? 1 then
         let* a := getitem regs regSrcA in let* b := getitem regs regSrcB in
         setitem regs regDst (keep_16bits (a - b))
       else if opcode =? 2 then
         let* a := getitem regs regSrcA in let* b := getitem regs regSrcB in
         setitem regs regDst (keep_16bits (Z.lor a b))
       else if opcode =? 3 then
         let* a := getitem regs regSrcA in let* b := getitem regs regSrcB in
         setitem regs regDst (keep_16bits (Z.land a b))
       else if opcode =? 4 then
         let* a := getitem regs regSrcA in let* b := getitem regs regSrcB in
         if a <? b then setitem regs regDst 1 else setitem regs regDst 0
       else Ok regs) in
    ret (valid_pc (pc + 1)) regs' memory.

(** The effective address of [lw] and [sw]. *)
Definition effective_address (base imm : Z) : Z :=
  Z.land (base + sign_number_converter imm 7) 8191.

Definition instruction_2R (instruction pc : Z) (regs memory : list Z)
  : result step_value :=
  let opcode := selector instruction in
  let regSrc := field_12_10 instruction in
  let regDst := field_9_7 instruction in
  let imm := imm7 instruction in
  if (regDst =? 0) && ((opcode =? 7) || (opcode =? 4) || (opcode =? 1)) then
    ret (valid_pc (pc + 1)) regs memory
  else if opcode =? 7 then
    let* a := getitem regs regSrc in
    let* regs' := (if a <? sign_extend_7 imm then setitem regs regDst 1
              else setitem regs regDst 0) in
    ret (valid_pc (pc + 1)) regs' memory
  else if opcode =? 4 then
    let* a := getitem regs regSrc in
    let val := effective_address a imm in
    let* w := getitem memory val in
    let* regs' := setitem regs regDst (keep_16bits w) in
    ret (valid_pc (pc + 1)) regs' memory
  else if opcode =? 5 then
    let* a := getitem regs regSrc in
    let val := effective_address a imm in
    let* d := getitem regs regDst in
    let* memory' := setitem memory val d in
    ret (valid_pc (pc + 1)) regs memory'
  else if opcode =? 6 then
    let* a := getitem regs regSrc in
    let* d := getitem regs regDst in
    if a =? d then
      ret (valid_pc (pc + 1 + sign_number_converter imm 7)) regs memory
    else
      ret (valid_pc (pc + 1)) regs memory
  else if opcode =? 1 then
    let* a := getitem regs regSrc in
    let* regs' := setitem regs regDst (keep_16bits (a + sign_number_converter imm 7)) in
    ret (valid_pc (pc + 1)) regs' memory
  else Ok None.

Definition instruction_0R (instruction pc : Z) (regs memory : list Z)
  : result step_value :=
  let opcode := selector instruction in
  let imm := imm13 instruction in
  if opcode =? 2 then
    ret (valid_pc imm) regs memory
  else if opcode =? 3 then
    let* regs' := setitem regs 7 (keep_16bits (pc + 1)) in
    ret (valid_pc imm) regs' memory
  else
    ret (valid_pc pc) regs memory.

(** ** One simulation step: fetch, classify, execute *)

Definition simulation (pc : Z) (regs memory : list Z) : result step_value :=
  let* instruction := getitem memory (pc mod 8192) in
  if selector instruction =? 0 then
    instruction_3R instruction pc regs memory
  else if (selector instruction =? 2) || (selector instruction =? 3) then
    instruction_0R instruction pc regs memory
  else
    instruction_2R instruction pc regs memory.

(** ** The loader

    A Python [str] is the list of its code points.  The file is opened in
    text mode, so a line may hold any character; [\d] in a [str] pattern is
    the class of the Unicode decimal digits (category Nd), the characters
    [int()] reads as digits as well.  They come in runs of ten consecutive
    code points for the values 0 to 9; [decimal_zeros] lists the code point
    of every digit zero (Unicode 14.0.0, the table of CPython 3.11).
    [machine_code_re] is [^ram\[(\d+)\] = 16'b(\d+);.*$] used with
    [re.match]: both digit groups are greedy and each is followed by a
    literal that is not a digit, so the match is deterministic. *)

Module Loader.

Abbreviation pystr := (list Z) (only parsing).

(** The code points of a literal of the source. *)
Definition text (s : string) : pystr :=
  map (fun c => Z.of_nat (nat_of_ascii c)) (list_ascii_of_string s).

Definition decimal_zeros : list Z :=
  [48; 1632; 1776; 1984; 2406; 2534; 2662; 2790; 2918; 3046; 3174; 3302;
   3430; 3558; 3664; 3792; 3872; 4160; 4240; 6112; 6160; 6470; 6608; 6784;
   6800; 6992; 7088; 7232; 7248; 42528; 43216; 43264; 43472; 43504; 43600;
   44016; 65296; 66720; 68912; 69734; 69872; 69942; 70096; 70384; 70736;
   70864; 71248; 71360; 71472; 71904; 72016; 72784; 73040; 73120; 92768;
   92864; 93008; 120782; 120792; 120802; 120812; 120822; 123200; 123632;
   125264; 130032].

(** The value of a decimal digit, [None] for any other character. *)
Definition decimal_value (c : Z) : option Z :=
  match find (fun zero => (zero <=? c) && (c <? zero + 10)) decimal_zeros with
  | Some zero => Some (c - zero)
  | None => None
  end.

Definition is_digit (c : Z) : bool :=
  match decimal_value c with Some _ => true | None => false end.

Fixpoint strip_prefix (p s : pystr) : option pystr :=
  match p, s with
  | [], _ => Some s
  | a :: p', b :: s' => if a =? b then strip_prefix p' s' else None
  | _ :: _, [] => None
  end.

(** [(\d+)] reads the longest run of digits. *)
Fixpoint span_digits (s : pystr) : pystr * pystr :=
  match s with
  | c :: s' =>
      if is_digit c then
        let (d, r) := span_digits s' in (c :: d, r)
      else ([], s)
  | [] => ([], [])
  end.

Definition newline : Z := 10.

(** [.*$]: no newline in the rest of the line, but for one that ends it. *)
Fixpoint dot_star_end (s : pystr) : bool :=
  match s with
  | [] => true
  | c :: s' =>
      if c =? newline then
        match s' with [] => true | _ :: _ => false end
      else dot_star_end s'
  end.

(** [machine_code_re.match(line)], with [match.groups()] when it matches. *)
Definition machine_code_re (line : pystr) : option (pystr * pystr) :=
  match strip_prefix (text "ram[") line with
  | None => None
  | Some s1 =>
      let (addr, s2) := span_digits s1 in
      match addr with
      | [] => None
      | _ :: _ =>
          match strip_prefix (text "] = 16'b") s2 with
          | None => None
          | Some s3 =>
              let (instr, s4) := span_digits s3 in
              match instr with
              | [] => None
              | _ :: _ =>
                  match strip_prefix (text ";") s4 with
                  | None => None
                  | Some s5 =>
                      if dot_star_end s5 then Some (addr, instr) else None
                  end
              end
          end
      end
  end.

Fixpoint int_acc (base acc : Z) (s : pystr) : option Z :=
  match s with
  | [] => Some acc
  | c :: s' =>
      match decimal_value c with
      | Some d => if d <? base then int_acc base (acc * base + d) s' else None
      | None => None
      end
  end.

(** [sys.get_int_max_str_digits()], as CPython sets it: a conversion between
    [int] and [str] in a base that is not a power of two raises
    [ValueError] when it involves more digits. *)
Definition int_max_str_digits : Z := 4300.

Definition power_of_two (base : Z) : bool :=
  existsb (Z.eqb base) [2; 4; 8; 16; 32].

(** [int(s, base)] on a string of digits, as the groups of the pattern
    are. *)
Definition int (s : pystr) (base : Z) : result Z :=
  match s with
  | [] => Raise ValueError_literal
  | _ :: _ =>
      if negb (power_of_two base) && (int_max_str_digits <? len s) then
        Raise ValueError_digits
      else
        match int_acc base 0 s with
        | Some v => Ok v
        | None => Raise ValueError_literal
        end
  end.

(** The body of the [for] loop, iterated over the lines.  The list [mem] is
    written in place, so the memory is handed back in both outcomes. *)
Fixpoint load_lines (machine_code : list pystr) (expectedaddr : Z)
         (mem : list Z) : list Z * result unit :=
  match machine_code with
  | [] => (mem, Ok tt)
  | line :: rest =>
      match machine_code_re line with
      | None => (mem, Raise ValueError_parse)
      | Some (addr_s, instr_s) =>
          match int addr_s 10 with
          | Raise e => (mem, Raise e)
          | Ok addr =>
              match int instr_s 2 with
              | Raise e => (mem, Raise e)
              | Ok instr =>
                  if negb (addr =? expectedaddr) then (mem, Raise ValueError_sequence)
                  else if len mem <=? addr then (mem, Raise ValueError_capacity)
                  else
                    match setitem mem addr instr with
                    | Raise e => (mem, Raise e)
                    | Ok mem' => load_lines rest (expectedaddr + 1) mem'
                    end
              end
          end
      end
  end.

Definition load_machine_code (machine_code : list pystr) (mem : list Z)
  : list Z * result unit :=
  load_lines machine_code 0 mem.

End Loader.
Export Loader.

(** ** The run loop of [main] *)

Record machine : Type := Machine { m_pc : Z; m_regs : list Z; m_memory : list Z }.

Inductive loop_outcome : Type :=
| Break (m : machine)       (* the halt test fired: [print_state] gets [m] *)
| Continue (m : machine).   (* [old_pc], [regs], [memory] for the next round *)

Definition outcome_machine (o : loop_outcome) : machine :=
  match o with Break m => m | Continue m => m end.

(** One round of [while True].  [regs] and [memory] are the objects the
    step has just mutated, so the halt test reads the memory after the
    step, at [old_pc % 8191]. *)
Definition loop_body (m : machine) : result loop_outcome :=
  let old_pc := m_pc m in
  let* r := simulation old_pc (m_regs m) (m_memory m) in
  match r with
  | None => Raise TypeError
  | Some (new_pc, new_regs, new_memory) =>
      let m' := Machine new_pc new_regs new_memory in
      if new_pc =? old_pc then
        let* w := getitem new_memory (old_pc mod 8191) in
        if Z.shiftr w 13 =? 2 then Ok (Break m') else Ok (Continue m')
      else Ok (Continue m')
  end.

(** The loop, cut after [fuel] rounds. *)
Fixpoint run_loop (fuel : nat) (m : machine) : result loop_outcome :=
  match fuel with
  | O => Ok (Continue m)
  | S fuel' =>
      let* o := loop_body m in
      match o with
      | Break m' => Ok (Break m')
      | Continue m' => run_loop fuel' m'
      end
  end.

Definition initial_regs : list Z := replicate (Z.to_nat NUM_REGS) 0.
Definition initial_memory : list Z := replicate (Z.to_nat MEM_SIZE) 0.

(** The machine [main] starts the loop on, once a memory image is loaded. *)
Definition boot (mem : list Z) : machine := Machine 0 initial_regs mem.

(** The part of [main] between the opening of the file and the printing of
    the final state: the call of the loader and the loop (lines 199 to
    212), [file] being the lines the opened file reads as.  The whole of
    [main], with the command line, [open] and [print_state], is
    [main_program] below. *)
Definition main (file : list pystr) (fuel : nat) : result loop_outcome :=
  match load_machine_code file initial_memory with
  | (_, Raise e) => Raise e
  | (mem, Ok _) => run_loop fuel (boot mem)
  end.

(** ** Well-formed machines *)

Definition word (v : Z) : Prop := 0 <= v < 65536.
Definition words (l : list Z) : Prop := Forall word l.

(** Boolean versions, for concrete machines. *)
Definition wordb (v : Z) : bool := (0 <=? v) && (v <? 65536).
Definition wordsb (l : list Z) : bool := forallb wordb l.

(** What every executor guarantees on a machine with [NUM_REGS] registers and
    [MEM_SIZE] memory cells: it hands back a tuple, the next pc is a 16-bit
    value, both lists keep their length, register 0 is not written, and
    16-bit contents stay 16-bit. *)
Definition step_ok (regs memory : list Z) (r : result step_value) : Prop :=
  exists pc' regs' memory',
    r = Ok (Some (pc', regs', memory')) /\
    0 <= pc' < 65536 /\
    len regs' = len regs /\
    len memory' = len memory /\
    regs' !! 0%nat = regs !! 0%nat /\
    (words regs -> words memory -> words regs') /\
    (words regs -> words memory -> words memory').

(** ** Vocabulary of the statements *)

(** A machine [main] can hand to a step: 8 registers, 8192 cells, and
    register 0 reading 0. *)
Definition wf_machine (m : machine) : Prop :=
  len (m_regs m) = NUM_REGS /\ len (m_memory m) = MEM_SIZE /\
  m_regs m !! 0%nat = Some 0.

(** The destination-register field of a word: bits 6-4 in the
    three-register format, bits 9-7 in the two-register format; the
    zero-register format has none. *)
Definition destination_field (instruction : Z) : option Z :=
  if selector instruction =? 0 then Some (field_6_4 instruction)
  else if (selector instruction =? 2) || (selector instruction =? 3) then None
  else Some (field_9_7 instruction).

Definition reg (regs : list Z) (i : Z) : Z := default 0 (regs !! Z.to_nat i).

(** The next pc of each instruction kind, as the [return]s of the executors
    give it: the register for JR, the immediate for J and JAL, the branch
    target or pc+1 for JEQ, pc+1 for all others.  The destination field
    plays no part in it. *)
Definition next_pc (instruction pc : Z) (regs : list Z) : Z :=
  let sel := selector instruction in
  if sel =? 0 then
    if opcode4 instruction =? 8
    then valid_pc (reg regs (field_12_10 instruction))
    else valid_pc (pc + 1)
  else if (sel =? 2) || (sel =? 3) then valid_pc (imm13 instruction)
  else if sel =? 6 then
    if reg regs (field_12_10 instruction) =? reg regs (field_9_7 instruction)
    then valid_pc (pc + 1 + sign_number_converter (imm7 instruction) 7)
    else valid_pc (pc + 1)
  else valid_pc (pc + 1).

(** ** The text of a line *)

Fixpoint all_digits (s : pystr) : bool :=
  match s with
  | [] => true
  | c :: s' => is_digit c && all_digits s'
  end.

(** A line as the pattern reads it: the two groups and what follows the
    semicolon. *)
Definition ram_text (addr_s instr_s rest : pystr) : pystr :=
  text "ram[" ++ addr_s ++ text "] = 16'b" ++ instr_s ++ text ";" ++ rest.

(** Line number [i] of a file makes the loader raise, the memory having
    [cap] cells: the pattern does not match, or the address has more digits
    than [int] converts, or a data digit is not binary, or the address is
    not [i], or it is not below [cap]. *)
Definition rejected (cap i : Z) (line : pystr) : Prop :=
  machine_code_re line = None \/
  exists addr_s instr_s, machine_code_re line = Some (addr_s, instr_s) /\
    (int_max_str_digits < len addr_s \/
     int instr_s 2 = Raise ValueError_literal \/
     exists addr, int addr_s 10 = Ok addr /\ (addr <> i \/ cap <= addr)).

(** The three conditions alone, the pattern being the loader's: no match,
    address out of sequence, address at or beyond capacity. *)
Definition rejected_by_pattern_sequence_capacity (cap i : Z) (line : pystr) : Prop :=
  machine_code_re line = None \/
  exists addr_s instr_s, machine_code_re line = Some (addr_s, instr_s) /\
    exists addr, int addr_s 10 = Ok addr /\ (addr <> i \/ cap <= addr).

(** The line format in the words of the interface description:
    [ram[<decimal-address>] = 16'b<16-binary-digits>;].  Whatever follows
    the semicolon is let through. *)
Definition spec_line (line : pystr) : Prop :=
  exists addr_s instr_s rest,
    line = ram_text addr_s instr_s rest /\
    addr_s <> [] /\ all_digits addr_s = true /\
    length instr_s = 16%nat /\ Forall (fun c => c = 48 \/ c = 49) instr_s.

(** The three conditions again, the pattern being [spec_line]. *)
Definition rejected_by_spec_line_sequence_capacity (cap i : Z) (line : pystr) : Prop :=
  ~ spec_line line \/
  exists addr_s instr_s, machine_code_re line = Some (addr_s, instr_s) /\
    exists addr, int addr_s 10 = Ok addr /\ (addr <> i \/ cap <= addr).

(** Files for the loader: line [addr] in the format the assembler writes,
    and a file of [n] lines with addresses 0, 1, ..., n-1. *)
Definition ram_line (addr : nat) (bits : string) : pystr :=
  text ("ram[" ++ NilZero.string_of_uint (Nat.to_uint addr) ++ "] = 16'b" ++ bits ++ ";")%string.

Definition sequential_file (n : nat) : list pystr :=
  map (fun addr => ram_line addr "0000000000000000") (seq 0 n).

(** Two memory images with a self-jump in the last cell.  24575 is J 8191
    (010 1111111111111) and 32767 is JAL 8191 (011 1111111111111). *)
Definition image_j_last : list Z :=
  <[Z.to_nat 8191 := 24575]> (<[0%nat := 32767]> initial_memory).

Definition image_jal_last : list Z :=
  <[Z.to_nat 8191 := 32767]> (<[0%nat := 24575]> initial_memory).

(** ** Frames and error kinds *)

(** What one step may change: nothing, or one register other than register
    0 (which gets a 16-bit value), or one memory cell (which gets the value
    of a register); never a register and a cell together. *)
Definition step_frame (regs memory : list Z) (r : result step_value) : Prop :=
  exists pc' regs' memory',
    r = Ok (Some (pc', regs', memory')) /\
    ((regs' = regs /\ memory' = memory) \/
     (memory' = memory /\
      exists d v, 0 < d < 8 /\ word v /\ regs' = <[Z.to_nat d := v]> regs) \/
     (regs' = regs /\
      exists addr i v, 0 <= addr < 8192 /\ 0 <= i < 8 /\
        getitem regs i = Ok v /\ memory' = <[Z.to_nat addr := v]> memory)).

(** The reason the loader has to raise [e] on line number [i]: the tests of
    the loop body in their order. *)
Definition raised_by (cap i : Z) (line : pystr) (e : exn) : Prop :=
  match e with
  | ValueError_parse => machine_code_re line = None
  | ValueError_digits =>
      exists addr_s instr_s, machine_code_re line = Some (addr_s, instr_s) /\
        int_max_str_digits < len addr_s
  | ValueError_literal =>
      exists addr_s instr_s addr,
        machine_code_re line = Some (addr_s, instr_s) /\
        int addr_s 10 = Ok addr /\ int instr_s 2 = Raise ValueError_literal
  | ValueError_sequence =>
      exists addr_s instr_s addr w,
        machine_code_re line = Some (addr_s, instr_s) /\
        int instr_s 2 = Ok w /\ int addr_s 10 = Ok addr /\ addr <> i
  | ValueError_capacity =>
      exists addr_s instr_s w,
        machine_code_re line = Some (addr_s, instr_s) /\
        int instr_s 2 = Ok w /\ int addr_s 10 = Ok i /\ cap <= i
  | IndexError | TypeError | SystemExit | OSError | UnicodeDecodeError => False
  end.

(** ** Printing the final state

    [print] is modelled by the list of the lines written so far, each
    without its newline; what is printed is ASCII, so the lines are
    [string]s.  [format(v, "5d")] right-aligns the decimal numeral of [v] in
    5 columns; [format(v, "04x")] pads the lower-case hexadecimal numeral
    with zeros to 4 columns, after the sign if there is one; wider numerals
    are written in full.  A decimal numeral of more than
    [int_max_str_digits] digits is not written: the conversion raises
    [ValueError]. *)

Module Printer.

Definition digit_char (d : Z) : ascii :=
  ascii_of_nat (Z.to_nat (if d <? 10 then 48 + d else 87 + d)).

(** The digits of [n >= 0], last digit first into [acc]; [fuel] bounds the
    number of digits. *)
Fixpoint digits (base : Z) (fuel : nat) (n : Z) (acc : string) : string :=
  match fuel with
  | O => acc
  | S fuel' =>
      let acc' := String (digit_char (n mod base)) acc in
      if n / base =? 0 then acc' else digits base fuel' (n / base) acc'
  end.

Definition numeral (base n : Z) : string :=
  digits base (S (Z.to_nat (Z.log2 n))) n EmptyString.

(** The decimal numeral of [v] is within the limit of the conversion. *)
Definition short_numeral (v : Z) : bool :=
  Z.of_nat (String.length (numeral 10 (Z.abs v))) <=? int_max_str_digits.

(** The first number whose decimal numeral is too long: [str(v)] and
    [format(v, "5d")] raise from [10 ** 4300] on, in absolute value. *)
Definition str_limit : Z := 10 ^ int_max_str_digits.

(** [str(v)] *)
Definition str (v : Z) : result string :=
  if short_numeral v then
    Ok (if v <? 0 then String "-" (numeral 10 (- v)) else numeral 10 v)
  else Raise ValueError_digits.

Fixpoint pad (c : ascii) (k : nat) (s : string) : string :=
  match k with
  | O => s
  | S k' => String c (pad c k' s)
  end.

Definition rjust (c : ascii) (width : nat) (s : string) : string :=
  pad c (width - String.length s) s.

Definition format_5d (v : Z) : result string :=
  let* s := str v in Ok (rjust " " 5 s).

Definition format_04x (v : Z) : string :=
  if v <? 0 then String "-" (rjust "0" 3 (numeral 16 (- v)))
  else rjust "0" 4 (numeral 16 v).

Definition tab : ascii := ascii_of_nat 9.

(** The [for reg, regval in enumerate(regs)] loop: the lines printed, and
    the error of a conversion if one raised. *)
Fixpoint print_regs (reg : Z) (regs : list Z) : list string * result unit :=
  match regs with
  | [] => ([], Ok tt)
  | regval :: rest =>
      match str reg with
      | Raise e => ([], Raise e)
      | Ok name =>
          match format_5d regval with
          | Raise e => ([], Raise e)
          | Ok value =>
              let (out, r) := print_regs (reg + 1) rest in
              (String tab (String "$" (String.append name (String "=" value)))
               :: out, r)
          end
      end
  end.

(** The [for count in range(memquantity)] loop, [todo] rounds from [count]
    on: the lines printed and, unless a subscript raised, the line left in
    [line]. *)
Fixpoint print_memory (memory : list Z) (count : Z) (todo : nat)
         (line : string) (out : list string) : list string * result string :=
  match todo with
  | O => (out, Ok line)
  | S todo' =>
      match getitem memory count with
      | Raise e => (out, Raise e)
      | Ok w =>
          let line' := String.append line (String.append (format_04x w) " ") in
          if count mod 8 =? 7
          then print_memory memory (count + 1) todo' EmptyString (out ++ [line'])
          else print_memory memory (count + 1) todo' line' out
      end
  end.

Definition print_state (pc : Z) (regs memory : list Z) (memquantity : Z)
  : list string * result unit :=
  let title := "Final state:"%string in
  match format_5d pc with
  | Raise e => ([title], Raise e)
  | Ok pc_s =>
      let head := [title; String tab (String.append "pc=" pc_s)] in
      match print_regs 0 regs with
      | (lines, Raise e) => (head ++ lines, Raise e)
      | (lines, Ok _) =>
          match print_memory memory 0 (Z.to_nat memquantity) EmptyString [] with
          | (out, Raise e) => (head ++ lines ++ out, Raise e)
          | (out, Ok line) =>
              (head ++ lines ++ out
                 ++ match line with EmptyString => [] | String _ _ => [line] end,
               Ok tt)
          end
      end
  end.

End Printer.
Export Printer.

(** What [main] prints once the loop has broken: [print_state] on the final
    machine with 128 cells. *)
Definition final_report (m : machine) : list string * result unit :=
  print_state (m_pc m) (m_regs m) (m_memory m) 128.

(** ** The whole of [main]

    Around the load and the loop [main] talks to the world: it parses the
    command line (lines 188 to 190), opens the file (line 197), lets the
    loader read the file line by line while it loops (line 199), and prints
    the final state on the standard output (line 214).  What the world
    answers is an input of the model: the command line is refused
    ([parse_args] leaves with [SystemExit]), or the file cannot be opened
    ([open] raises [OSError]), or the file yields [lines] and then either
    ends or fails to read on with [failure] (an [OSError], or a
    [UnicodeDecodeError] on bytes that are not text); and the standard
    output takes what is printed, or fails with [print_failure]. *)

Inductive startup : Type :=
| ParseArgsExits
| OpenRaises
| FileYields (lines : list pystr) (failure print_failure : option exn).

Inductive program_outcome : Type :=
| Running (m : machine)              (* the loop has not broken yet *)
| Finished (output : list string).   (* the loop broke; the state is printed *)

Definition main_program (s : startup) (fuel : nat) : result program_outcome :=
  match s with
  | ParseArgsExits => Raise SystemExit
  | OpenRaises => Raise OSError
  | FileYields lines failure print_failure =>
      match load_machine_code lines initial_memory with
      | (_, Raise e) => Raise e
      | (mem, Ok _) =>
          match failure with
          | Some e => Raise e
          | None =>
              match run_loop fuel (boot mem) with
              | Raise e => Raise e
              | Ok (Continue m) => Ok (Running m)
              | Ok (Break m) =>
                  match final_report m with
                  | (_, Raise e) => Raise e
                  | (output, Ok _) =>
                      match print_failure with
                      | Some e => Raise e
                      | None => Ok (Finished output)
                      end
                  end
              end
          end
      end
  end.

(** Every line that matches the pattern has at most 16 data digits. *)
Definition data_fits_16 (lines : list pystr) : bool :=
  forallb (fun line =>
             match machine_code_re line with
             | Some (_, instr_s) => (length instr_s <=? 16)%nat
             | None => true
             end) lines.

(** * Properties *)

(** ** Bit fields as quotients and remainders *)

Section BitFields.

Lemma masked_shift (x mask k w : Z) :
  0 <= w -> Z.shiftr mask k = Z.ones w ->
  Z.shiftr (Z.land x mask) k = (Z.shiftr x k) mod 2 ^ w.
Proof.
  intros Hw Hmask. rewrite Z.shiftr_land, Hmask. now apply Z.land_ones.
Qed.

Lemma selector_mod i : selector i = (Z.shiftr i 13) mod 8.
Proof. unfold selector. now rewrite (masked_shift i 57344 13 3). Qed.

Lemma field_12_10_mod i : field_12_10 i = (Z.shiftr i 10) mod 8.
Proof. unfold field_12_10. now rewrite (masked_shift i 7168 10 3). Qed.

Lemma field_9_7_mod i : field_9_7 i = (Z.shiftr i 7) mod 8.
Proof. unfold field_9_7. now rewrite (masked_shift i 896 7 3). Qed.

Lemma field_6_4_mod i : field_6_4 i = (Z.shiftr i 4) mod 8.
Proof. unfold field_6_4. now rewrite (masked_shift i 112 4 3). Qed.

Lemma opcode4_mod i : opcode4 i = i mod 16.
Proof. unfold opcode4. change 15 with (Z.ones 4). now rewrite Z.land_ones. Qed.

Lemma imm7_mod i : imm7 i = i mod 128.
Proof. unfold imm7. change 127 with (Z.ones 7). now rewrite Z.land_ones. Qed.

Lemma imm13_mod i : imm13 i = i mod 8192.
Proof. unfold imm13. change 8191 with (Z.ones 13). now rewrite Z.land_ones. Qed.

Lemma keep_16bits_mod n : keep_16bits n = n mod 65536.
Proof.
  unfold keep_16bits. change (Z.shiftl 1 16 - 1) with (Z.ones 16).
  now rewrite Z.land_ones.
Qed.

Lemma selector_range i : 0 <= selector i < 8.
Proof. rewrite selector_mod. now apply Z.mod_pos_bound. Qed.

Lemma field_12_10_range i : 0 <= field_12_10 i < 8.
Proof. rewrite field_12_10_mod. now apply Z.mod_pos_bound. Qed.

Lemma field_9_7_range i : 0 <= field_9_7 i < 8.
Proof. rewrite field_9_7_mod. now apply Z.mod_pos_bound. Qed.

Lemma field_6_4_range i : 0 <= field_6_4 i < 8.
Proof. rewrite field_6_4_mod. now apply Z.mod_pos_bound. Qed.

Lemma imm7_range i : 0 <= imm7 i < 128.
Proof. rewrite imm7_mod. now apply Z.mod_pos_bound. Qed.

Lemma imm13_range i : 0 <= imm13 i < 8192.
Proof. rewrite imm13_mod. now apply Z.mod_pos_bound. Qed.

Lemma keep_16bits_range n : 0 <= keep_16bits n < 65536.
Proof. rewrite keep_16bits_mod. now apply Z.mod_pos_bound. Qed.

Lemma valid_pc_range pc : 0 <= valid_pc pc < 65536.
Proof. unfold valid_pc. now apply Z.mod_pos_bound. Qed.

(** On a 16-bit word the halt test's plain shift is the format selector. *)
Lemma shiftr_13_selector w : 0 <= w < 65536 -> Z.shiftr w 13 = selector w.
Proof.
  intros Hw. rewrite selector_mod, Z.shiftr_div_pow2 by lia.
  symmetry. apply Z.mod_small. change (2 ^ 13) with 8192.
  split; [apply Z.div_pos; lia | apply Z.div_lt_upper_bound; lia].
Qed.

End BitFields.

(** ** The two readings of a 7-bit immediate *)

Section Immediates.

(** The sign test [(num & 64) >> 6 == 1] is the comparison with 64. *)
Lemma sign_bit_7 x :
  0 <= x < 128 -> (Z.shiftr (Z.land x 64) 6 =? 1) = (64 <=? x).
Proof.
  intros Hx. rewrite (masked_shift x 64 6 1) by easy.
  rewrite Z.shiftr_div_pow2 by lia. change (2 ^ 6) with 64. change (2 ^ 1) with 2.
  destruct (Z.leb_spec 64 x) as [H | H].
  - replace x with (1 * 64 + (x - 64)) by lia.
    rewrite Z.div_add_l, (Z.div_small (x - 64) 64) by lia. reflexivity.
  - rewrite Z.div_small by lia. reflexivity.
Qed.

Lemma sign_extend_7_value x :
  0 <= x < 128 -> sign_extend_7 x = if 64 <=? x then x + 65408 else x.
Proof.
  intros Hx. unfold sign_extend_7. rewrite sign_bit_7 by assumption.
  destruct (64 <=? x); [|reflexivity].
  rewrite <- Z.add_nocarry_lor; [lia|].
  change 65408 with (Z.shiftl 511 7).
  apply Z.bits_inj'. intros n Hn. rewrite Z.land_spec, Z.bits_0.
  destruct (Z.ltb_spec n 7).
  - rewrite Z.shiftl_spec_low by lia. reflexivity.
  - rewrite (Z.bits_above_log2 x n); [apply andb_false_r | lia |].
    destruct (Z.eq_dec x 0) as [-> | Hnz]; [simpl; lia|].
    apply Z.log2_lt_pow2; [lia|]. apply Z.lt_le_trans with (2 ^ 7); [simpl; lia|].
    apply Z.pow_le_mono_r; lia.
Qed.

Lemma sign_number_converter_value x :
  0 <= x < 128 -> sign_number_converter x 7 = if 64 <=? x then x - 128 else x.
Proof.
  intros Hx. unfold sign_number_converter. rewrite sign_bit_7 by assumption.
  destruct (64 <=? x); [|reflexivity].
  change (Z.shiftl 1 7 - 1) with (Z.ones 7).
  assert (Hl : Z.land x (Z.ones 7) = x).
  { rewrite Z.land_ones by lia. apply Z.mod_small. simpl; lia. }
  pose proof (Z.sub_lor_land x (Z.ones 7)) as Hs.
  pose proof (Z.add_lor_land x (Z.ones 7)) as Ha.
  rewrite Hl in Hs, Ha. change (Z.ones 7) with 127 in *. lia.
Qed.

End Immediates.

(** ** Subscripts that stay inside the list *)

Section Subscripts.

Lemma getitem_lookup (l : list Z) (i : Z) :
  0 <= i < len l -> exists v, getitem l i = Ok v /\ l !! Z.to_nat i = Some v.
Proof.
  intros Hi. unfold getitem, norm_index, in_range.
  destruct (Z.ltb_spec i 0); [lia|].
  destruct (Z.leb_spec 0 i); [|lia].
  destruct (Z.ltb_spec i (len l)); [|lia]. simpl.
  destruct (l !! Z.to_nat i) as [v|] eqn:Hv; [eauto|].
  apply lookup_ge_None in Hv. unfold len in Hi. lia.
Qed.

Lemma setitem_insert (l : list Z) (i v : Z) :
  0 <= i < len l -> setitem l i v = Ok (<[Z.to_nat i := v]> l).
Proof.
  intros Hi. unfold setitem, norm_index, in_range.
  destruct (Z.ltb_spec i 0); [lia|].
  destruct (Z.leb_spec 0 i); [|lia].
  destruct (Z.ltb_spec i (len l)); [|lia]. reflexivity.
Qed.

Lemma len_insert (l : list Z) (i : nat) (v : Z) : len (<[i := v]> l) = len l.
Proof. unfold len. now rewrite length_insert. Qed.

Lemma len_replicate (n v : Z) : 0 <= n -> len (replicate (Z.to_nat n) v) = n.
Proof. intros Hn. unfold len. rewrite length_replicate. lia. Qed.

End Subscripts.

(** ** The executors on a well-formed machine *)

Lemma wordsb_words l : wordsb l = true -> words l.
Proof.
  unfold wordsb, words. rewrite forallb_forall, Forall_forall.
  intros H v Hv. apply list_elem_of_In, H in Hv. unfold wordb in Hv. unfold word. lia.
Qed.

Section Executors.

Variables (regs memory : list Z).
Hypothesis Hregs : len regs = NUM_REGS.
Hypothesis Hmem : len memory = MEM_SIZE.

Lemma step_ok_same pc : step_ok regs memory (ret (valid_pc pc) regs memory).
Proof.
  exists (valid_pc pc), regs, memory. pose proof (valid_pc_range pc).
  repeat split; auto; lia.
Qed.

Lemma step_ok_write pc (d v : Z) :
  0 < d < 8 -> word v ->
  step_ok regs memory (ret (valid_pc pc) (<[Z.to_nat d := v]> regs) memory).
Proof.
  intros Hd Hv. exists (valid_pc pc), (<[Z.to_nat d := v]> regs), memory.
  pose proof (valid_pc_range pc).
  repeat split; auto; try lia.
  - apply len_insert.
  - apply list_lookup_insert_ne. lia.
  - intros Hw _. now apply Forall_insert.
Qed.

Lemma read_reg (i : Z) :
  0 <= i < 8 -> exists v, getitem regs i = Ok v /\ regs !! Z.to_nat i = Some v.
Proof. intros Hi. apply getitem_lookup. rewrite Hregs. exact Hi. Qed.

Lemma write_reg (i v : Z) :
  0 <= i < 8 -> setitem regs i v = Ok (<[Z.to_nat i := v]> regs).
Proof. intros Hi. apply setitem_insert. rewrite Hregs. exact Hi. Qed.

Lemma instruction_3R_ok instruction pc :
  step_ok regs memory (instruction_3R instruction pc regs memory).
Proof.
  unfold instruction_3R.
  pose proof (field_12_10_range instruction) as HA.
  pose proof (field_9_7_range instruction) as HB.
  pose proof (field_6_4_range instruction) as HD.
  destruct (read_reg _ HA) as (a & Ea & _).
  destruct (read_reg _ HB) as (b & Eb & _).
  rewrite Ea. simpl.
  destruct (opcode4 instruction =? 8); [apply step_ok_same|].
  destruct (Z.eqb_spec (field_6_4 instruction) 0) as [|Hd]; [apply step_ok_same|].
  assert (Hd' : 0 < field_6_4 instruction < 8) by lia.
  rewrite Eb. simpl.
  repeat match goal with
         | |- context [if ?c =? ?k then _ else _] => destruct (c =? k)
         end;
    try match goal with |- context [a <? b] => destruct (a <? b) end;
    rewrite ?write_reg by lia; simpl;
    try (apply step_ok_write; [lia | first [apply keep_16bits_range | unfold word; lia]]).
  apply step_ok_same.
Qed.

Lemma effective_address_mod a imm :
  effective_address a imm = (a + sign_number_converter imm 7) mod 8192.
Proof.
  unfold effective_address. change 8191 with (Z.ones 13). now rewrite Z.land_ones.
Qed.

Lemma effective_address_range a imm : 0 <= effective_address a imm < 8192.
Proof. rewrite effective_address_mod. now apply Z.mod_pos_bound. Qed.

Lemma read_mem (i : Z) :
  0 <= i < 8192 ->
  exists w, getitem memory i = Ok w /\ memory !! Z.to_nat i = Some w.
Proof. intros Hi. apply getitem_lookup. rewrite Hmem. exact Hi. Qed.

Lemma write_mem (i v : Z) :
  0 <= i < 8192 -> setitem memory i v = Ok (<[Z.to_nat i := v]> memory).
Proof. intros Hi. apply setitem_insert. rewrite Hmem. exact Hi. Qed.

Lemma step_ok_store pc (addr : Z) (i : nat) (v : Z) :
  regs !! i = Some v ->
  step_ok regs memory (ret (valid_pc pc) regs (<[Z.to_nat addr := v]> memory)).
Proof.
  intros Hv. exists (valid_pc pc), regs, (<[Z.to_nat addr := v]> memory).
  pose proof (valid_pc_range pc).
  repeat split; auto; try lia.
  - apply len_insert.
  - intros Hw Hm. apply Forall_insert; [exact Hm|].
    exact (Forall_lookup_1 _ _ _ _ Hw Hv).
Qed.

(** The two-register executor is entered with a selector that is none of
    [000], [010], [011]; the five selectors left are the five opcodes its
    [if] chain knows, so it never runs off its end. *)
Lemma instruction_2R_ok instruction pc :
  selector instruction <> 0 -> selector instruction <> 2 ->
  selector instruction <> 3 ->
  step_ok regs memory (instruction_2R instruction pc regs memory).
Proof.
  intros H0 H2 H3. unfold instruction_2R.
  pose proof (selector_range instruction) as HS.
  pose proof (field_12_10_range instruction) as HA.
  pose proof (field_9_7_range instruction) as HD.
  destruct (read_reg _ HA) as (a & Ea & _).
  destruct (read_reg _ HD) as (d & Ed & Ld).
  destruct (Z.eqb_spec (field_9_7 instruction) 0) as [Hz|Hz];
    destruct (Z.eqb_spec (selector instruction) 7);
    destruct (Z.eqb_spec (selector instruction) 4);
    destruct (Z.eqb_spec (selector instruction) 1);
    destruct (Z.eqb_spec (selector instruction) 5);
    destruct (Z.eqb_spec (selector instruction) 6);
    try lia; simpl; try apply step_ok_same; rewrite Ea; simpl.
  - (* sw with regDst = 0 *)
    rewrite Ed. simpl. rewrite write_mem by apply effective_address_range. simpl.
    eapply step_ok_store, Ld.
  - (* jeq with regDst = 0 *)
    rewrite Ed. simpl. destruct (a =? d); apply step_ok_same.
  - (* slti *)
    destruct (a <? sign_extend_7 (imm7 instruction));
      rewrite write_reg by lia; simpl; apply step_ok_write; unfold word; lia.
  - (* lw *)
    destruct (read_mem _ (effective_address_range a (imm7 instruction)))
      as (w & Ew & _).
    rewrite Ew. simpl. rewrite write_reg by lia. simpl.
    apply step_ok_write; [lia | apply keep_16bits_range].
  - (* addi *)
    rewrite write_reg by lia. simpl.
    apply step_ok_write; [lia | apply keep_16bits_range].
  - (* sw *)
    rewrite Ed. simpl. rewrite write_mem by apply effective_address_range. simpl.
    eapply step_ok_store, Ld.
  - (* jeq *)
    rewrite Ed. simpl. destruct (a =? d); apply step_ok_same.
Qed.

Lemma instruction_0R_ok instruction pc :
  step_ok regs memory (instruction_0R instruction pc regs memory).
Proof.
  unfold instruction_0R.
  destruct (selector instruction =? 2); [apply step_ok_same|].
  destruct (selector instruction =? 3); [|apply step_ok_same].
  rewrite write_reg by lia. simpl.
  apply (step_ok_write _ 7); [lia | apply keep_16bits_range].
Qed.

(** A step never raises and never hands back [None]. *)
Lemma simulation_ok pc : step_ok regs memory (simulation pc regs memory).
Proof.
  unfold simulation.
  destruct (read_mem (pc mod 8192)) as (instruction & -> & _);
    [now apply Z.mod_pos_bound|]. simpl.
  destruct (Z.eqb_spec (selector instruction) 0); [apply instruction_3R_ok|].
  destruct (Z.eqb_spec (selector instruction) 2); [apply instruction_0R_ok|].
  destruct (Z.eqb_spec (selector instruction) 3); [apply instruction_0R_ok|].
  now apply instruction_2R_ok.
Qed.

End Executors.

(** ** Single instructions, from fetch to result *)

Lemma simulation_fetch pc regs memory instruction :
  getitem memory (pc mod 8192) = Ok instruction ->
  simulation pc regs memory =
    if selector instruction =? 0 then
      instruction_3R instruction pc regs memory
    else if (selector instruction =? 2) || (selector instruction =? 3) then
      instruction_0R instruction pc regs memory
    else
      instruction_2R instruction pc regs memory.
Proof. intros H. unfold simulation. rewrite H. reflexivity. Qed.

Lemma words_wordsb l : words l -> wordsb l = true.
Proof.
  unfold wordsb, words. rewrite forallb_forall, Forall_forall.
  intros H v Hv. apply list_elem_of_In, H in Hv. unfold wordb. unfold word in Hv. lia.
Qed.

(** C5: for every 7-bit pattern x in 0..127, the 16-bit sign-extended form
    [sign_extend_7 x] and the signed integer [sign_number_converter x 7] are
    congruent modulo 65536; the former is the residue of the latter. *)
Theorem sign_extend_7_congruent_signed (x : Z) :
  0 <= x < 128 ->
  sign_extend_7 x mod 65536 = sign_number_converter x 7 mod 65536 /\
  sign_extend_7 x = sign_number_converter x 7 mod 65536.
Proof.
  intros Hx.
  rewrite sign_extend_7_value, sign_number_converter_value by assumption.
  destruct (Z.leb_spec 64 x).
  - replace (x + 65408) with (x - 128 + 1 * 65536) by lia.
    rewrite Z.mod_add by lia. split; [reflexivity|].
    replace (x - 128) with (x + 65408 + (-1) * 65536) by lia.
    rewrite Z.mod_add by lia. rewrite Z.mod_small; lia.
  - split; [reflexivity|]. rewrite Z.mod_small; lia.
Qed.

Lemma sign_extend_7_congruent_signed_witness :
  0 <= 127 < 128 /\
  sign_extend_7 127 mod 65536 = sign_number_converter 127 7 mod 65536 /\
  sign_extend_7 127 = sign_number_converter 127 7 mod 65536.
Proof. split; [lia | apply (sign_extend_7_congruent_signed 127); lia]. Defined.

(** C10: one simulation step is total.  On a machine with a 16-bit pc, 8
    registers and 8192 memory cells, all holding 16-bit values, every
    register index decoded from a word is in 0..7, the fetch index and every
    load/store index is in 0..8191, and the step hands back a tuple (it
    neither raises nor returns [None]) whose pc is in 0..65535 and whose
    register file and memory are again 8 and 8192 16-bit values. *)
Theorem simulation_step_total (pc : Z) (regs memory : list Z) :
  0 <= pc < 65536 ->
  len regs = NUM_REGS -> wordsb regs = true ->
  len memory = MEM_SIZE -> wordsb memory = true ->
  (forall instruction,
      0 <= field_12_10 instruction < NUM_REGS /\
      0 <= field_9_7 instruction < NUM_REGS /\
      0 <= field_6_4 instruction < NUM_REGS) /\
  0 <= pc mod 8192 < MEM_SIZE /\
  (forall base imm, 0 <= effective_address base imm < MEM_SIZE) /\
  exists pc' regs' memory',
    simulation pc regs memory = Ok (Some (pc', regs', memory')) /\
    0 <= pc' < 65536 /\
    len regs' = NUM_REGS /\ wordsb regs' = true /\
    len memory' = MEM_SIZE /\ wordsb memory' = true.
Proof.
  intros Hpc Hr Wr Hm Wm.
  split; [|split; [|split]].
  - intros i. pose proof (field_12_10_range i). pose proof (field_9_7_range i).
    pose proof (field_6_4_range i). unfold NUM_REGS. lia.
  - change MEM_SIZE with 8192. now apply Z.mod_pos_bound.
  - intros b i. apply effective_address_range.
  - destruct (simulation_ok regs memory Hr Hm pc)
      as (pc' & regs' & memory' & E & Hpc' & Lr & Lm & _ & Wr' & Wm').
    exists pc', regs', memory'.
    apply wordsb_words in Wr, Wm.
    repeat split; try assumption; try lia; try congruence.
    + apply words_wordsb; auto.
    + apply words_wordsb; auto.
Qed.

Lemma simulation_step_total_witness :
  let memory := <[0%nat := 8325]> initial_memory in
  (forall instruction,
      0 <= field_12_10 instruction < NUM_REGS /\
      0 <= field_9_7 instruction < NUM_REGS /\
      0 <= field_6_4 instruction < NUM_REGS) /\
  0 <= 0 mod 8192 < MEM_SIZE /\
  (forall base imm, 0 <= effective_address base imm < MEM_SIZE) /\
  exists pc' regs' memory',
    simulation 0 initial_regs memory = Ok (Some (pc', regs', memory')) /\
    0 <= pc' < 65536 /\
    len regs' = NUM_REGS /\ wordsb regs' = true /\
    len memory' = MEM_SIZE /\ wordsb memory' = true.
Proof.
  apply (simulation_step_total 0 initial_regs (<[0%nat := 8325]> initial_memory));
    [lia | reflexivity | reflexivity | reflexivity | vm_compute; reflexivity].
Defined.

Lemma field_eqb_false (f k : Z) : f <> k -> (f =? k) = false.
Proof. apply Z.eqb_neq. Qed.

(** C8: a three-register-format instruction (selector 000) whose 4-bit
    opcode is none of 0000, 0001, 0010, 0011, 0100, 1000 is a silent no-op:
    registers and memory are unchanged and the next pc is (pc+1) mod 65536. *)
Theorem undefined_3R_opcode_is_noop (instruction pc : Z) (regs memory : list Z) :
  getitem memory (pc mod 8192) = Ok instruction ->
  selector instruction = 0 ->
  ~ In (opcode4 instruction) [0; 1; 2; 3; 4; 8] ->
  simulation pc regs memory = Ok (Some ((pc + 1) mod 65536, regs, memory)).
Proof.
  intros Hf Hs Hop. rewrite (simulation_fetch _ _ _ _ Hf), Hs. simpl (0 =? 0).
  cbv iota. unfold instruction_3R.
  assert (Hk : forall k, In k [0; 1; 2; 3; 4; 8] -> (opcode4 instruction =? k) = false).
  { intros k Hk. apply Z.eqb_neq. intros E. apply Hop. now rewrite E. }
  rewrite !Hk by (simpl; tauto).
  destruct (field_6_4 instruction =? 0); reflexivity.
Qed.

Lemma undefined_3R_opcode_is_noop_witness :
  let regs := [0; 7; 9; 11; 0; 0; 0; 0] in
  let memory := <[0%nat := 1333]> initial_memory in
  simulation 0 regs memory = Ok (Some ((0 + 1) mod 65536, regs, memory)).
Proof.
  intros regs memory.
  apply (undefined_3R_opcode_is_noop 1333 0 regs memory);
    [reflexivity | reflexivity | vm_compute; lia].
Defined.

(** C6: ADD with a nonzero destination stores (a+b) mod 65536 and SUB stores
    (a-b) mod 65536 into the destination register, a and b being the values
    of the two source registers; memory is unchanged and the next pc is
    (pc+1) mod 65536. *)
Theorem add_sub_wrap_around (instruction pc : Z) (regs memory : list Z) (a b : Z) :
  len regs = NUM_REGS ->
  getitem memory (pc mod 8192) = Ok instruction ->
  selector instruction = 0 ->
  field_6_4 instruction <> 0 ->
  getitem regs (field_12_10 instruction) = Ok a ->
  getitem regs (field_9_7 instruction) = Ok b ->
  (opcode4 instruction = 0 ->
   simulation pc regs memory =
     Ok (Some ((pc + 1) mod 65536,
               <[Z.to_nat (field_6_4 instruction) := (a + b) mod 65536]> regs,
               memory))) /\
  (opcode4 instruction = 1 ->
   simulation pc regs memory =
     Ok (Some ((pc + 1) mod 65536,
               <[Z.to_nat (field_6_4 instruction) := (a - b) mod 65536]> regs,
               memory))).
Proof.
  intros Hr Hf Hs Hd Ha Hb.
  pose proof (field_6_4_range instruction) as HD.
  rewrite (simulation_fetch _ _ _ _ Hf), Hs. simpl (0 =? 0). cbv iota.
  unfold instruction_3R. rewrite (field_eqb_false _ 0 Hd).
  split; intros Hop; rewrite Hop; simpl; rewrite Ha, Hb; simpl;
    rewrite (write_reg regs Hr) by lia; rewrite keep_16bits_mod; reflexivity.
Qed.

(** ADD(65535, 2) = 1 and SUB(2, 65535) = 3 on registers 1 and 2. *)
Lemma add_sub_wrap_around_witness :
  let regs := [0; 65535; 2; 0; 0; 0; 0; 0] in
  simulation 0 regs (<[0%nat := 1328]> initial_memory)
  = Ok (Some (1, <[3%nat := 1]> regs, <[0%nat := 1328]> initial_memory)) /\
  simulation 0 regs (<[0%nat := 2225]> initial_memory)
  = Ok (Some (1, <[3%nat := 3]> regs, <[0%nat := 2225]> initial_memory)).
Proof.
  intros regs. split.
  - apply (add_sub_wrap_around 1328 0 regs (<[0%nat := 1328]> initial_memory) 65535 2);
      [reflexivity | reflexivity | reflexivity | vm_compute; lia
      | reflexivity | reflexivity | reflexivity].
  - apply (add_sub_wrap_around 2225 0 regs (<[0%nat := 2225]> initial_memory) 2 65535);
      [reflexivity | reflexivity | reflexivity | vm_compute; lia
      | reflexivity | reflexivity | reflexivity].
Defined.

(** A selector of the two-register format falls through the first two tests
    of [simulation]. *)
Lemma simulation_fetch_2R pc regs memory instruction :
  getitem memory (pc mod 8192) = Ok instruction ->
  selector instruction <> 0 -> selector instruction <> 2 ->
  selector instruction <> 3 ->
  simulation pc regs memory = instruction_2R instruction pc regs memory.
Proof.
  intros Hf H0 H2 H3. rewrite (simulation_fetch _ _ _ _ Hf).
  now rewrite !field_eqb_false by assumption.
Qed.

(** C7: for LW and SW the effective address is (value of regSrc + signed
    value of the 7-bit immediate) mod 8192, whatever the register holds, and
    so lies in 0..8191.  LW (nonzero destination) loads the cell at that
    address into regDst; SW stores the value of regDst into that cell. *)
Theorem lw_sw_effective_address (instruction pc : Z) (regs memory : list Z) (a : Z) :
  len regs = NUM_REGS -> len memory = MEM_SIZE ->
  getitem memory (pc mod 8192) = Ok instruction ->
  getitem regs (field_12_10 instruction) = Ok a ->
  let imm := imm7 instruction in
  let addr := (a + (if 64 <=? imm then imm - 128 else imm)) mod 8192 in
  effective_address a imm = addr /\
  0 <= addr < 8192 /\
  (selector instruction = 4 -> field_9_7 instruction <> 0 ->
   exists w, getitem memory addr = Ok w /\
     simulation pc regs memory =
       Ok (Some ((pc + 1) mod 65536,
                 <[Z.to_nat (field_9_7 instruction) := w mod 65536]> regs,
                 memory))) /\
  (selector instruction = 5 ->
   exists d, getitem regs (field_9_7 instruction) = Ok d /\
     simulation pc regs memory =
       Ok (Some ((pc + 1) mod 65536, regs, <[Z.to_nat addr := d]> memory))).
Proof.
  intros Hr Hm Hf Ha imm addr.
  pose proof (field_9_7_range instruction) as HD.
  assert (Eaddr : effective_address a imm = addr).
  { rewrite effective_address_mod. unfold addr.
    now rewrite sign_number_converter_value by apply imm7_range. }
  assert (Raddr : 0 <= addr < 8192) by (now apply Z.mod_pos_bound).
  split; [exact Eaddr|]. split; [exact Raddr|]. split.
  - intros Hs Hd.
    destruct (read_mem memory Hm addr Raddr) as (w & Ew & _).
    exists w. split; [exact Ew|].
    rewrite (simulation_fetch_2R _ _ _ _ Hf) by lia.
    unfold instruction_2R. rewrite Hs, (field_eqb_false _ 0 Hd). simpl.
    fold imm. rewrite Ha. simpl. rewrite Eaddr, Ew. simpl.
    rewrite (write_reg regs Hr) by lia. now rewrite keep_16bits_mod.
  - intros Hs.
    destruct (read_reg regs Hr _ HD) as (d & Ed & _).
    exists d. split; [exact Ed|].
    rewrite (simulation_fetch_2R _ _ _ _ Hf) by lia.
    unfold instruction_2R. rewrite Hs.
    replace ((field_9_7 instruction =? 0) && ((5 =? 7) || (5 =? 4) || (5 =? 1)))
      with false by (now rewrite andb_false_r).
    simpl. fold imm. rewrite Ha. simpl. rewrite Eaddr, Ed. simpl.
    now rewrite (write_mem memory Hm) by lia.
Qed.

(** A register holding 65535 with immediate -1 (LW $2, -1($1)) and with
    immediate 3 (SW $2, 3($1)): the addresses are 8190 and 2. *)
Lemma lw_sw_effective_address_witness :
  let regs := [0; 65535; 41; 0; 0; 0; 0; 0] in
  (effective_address 65535 (imm7 34175) = 8190 /\
   simulation 0 regs (<[Z.to_nat 8190 := 77]> (<[0%nat := 34175]> initial_memory))
   = Ok (Some (1, <[2%nat := 77]> regs,
               <[Z.to_nat 8190 := 77]> (<[0%nat := 34175]> initial_memory)))) /\
  (effective_address 65535 (imm7 42243) = 2 /\
   simulation 0 regs (<[0%nat := 42243]> initial_memory)
   = Ok (Some (1, regs, <[2%nat := 41]> (<[0%nat := 42243]> initial_memory)))).
Proof.
  intros regs. split.
  - destruct (lw_sw_effective_address 34175 0 regs
                (<[Z.to_nat 8190 := 77]> (<[0%nat := 34175]> initial_memory)) 65535)
      as (E & _ & Hlw & _); [reflexivity | reflexivity | reflexivity | reflexivity |].
    split; [exact E|].
    destruct Hlw as (w & Ew & Es); [reflexivity | vm_compute; lia |].
    vm_compute in Ew. injection Ew as <-. exact Es.
  - destruct (lw_sw_effective_address 42243 0 regs
                (<[0%nat := 42243]> initial_memory) 65535)
      as (E & _ & _ & Hsw); [reflexivity | reflexivity | reflexivity | reflexivity |].
    split; [exact E|].
    destruct Hsw as (d & Ed & Es); [reflexivity |].
    vm_compute in Ed. injection Ed as <-. exact Es.
Defined.

(** C4, as stated, fails: SLTI $1, $0, -1 (word 57599) on zeroed registers.
    Register 0 holds 0 and the signed value of the immediate is -1, so a
    comparison with the signed value would store 0; the executor stores 1. *)
Lemma slti_signed_compare_counterexample :
  let regs := initial_regs in
  let memory := <[0%nat := 57599]> initial_memory in
  (selector 57599 = 7 /\ field_9_7 57599 = 1 /\
   getitem regs (field_12_10 57599) = Ok 0 /\
   sign_number_converter (imm7 57599) 7 = -1 /\
   simulation 0 regs memory = Ok (Some (1, <[1%nat := 1]> regs, memory))) /\
  ~ (forall a, getitem regs (field_12_10 57599) = Ok a ->
     simulation 0 regs memory =
       Ok (Some (1,
                 <[Z.to_nat (field_9_7 57599) :=
                     if a <? sign_number_converter (imm7 57599) 7 then 1 else 0]> regs,
                 memory))).
Proof.
  intros regs memory. split.
  - repeat match goal with |- _ /\ _ => split end; vm_compute; reflexivity.
  - intros H. specialize (H 0 eq_refl).
    assert (E : simulation 0 regs memory = Ok (Some (1, <[1%nat := 1]> regs, memory)))
      by (vm_compute; reflexivity).
    rewrite E in H.
    apply (f_equal (fun r => match r with
                             | Ok (Some (_, l, _)) => nth 1 l 0
                             | _ => 0
                             end)) in H.
    vm_compute in H. discriminate H.
Qed.

(** C4, amended: SLTI with a nonzero destination stores 1 into regDst exactly
    when the value of regSrc is less than the 16-bit sign-extended form of the
    7-bit immediate read as an unsigned number (imm for imm < 64, imm + 65408
    otherwise), stores 0 otherwise; memory is unchanged and the next pc is
    (pc+1) mod 65536. *)
Theorem slti_compares_with_sign_extended (instruction pc : Z) (regs memory : list Z) (a : Z) :
  len regs = NUM_REGS ->
  getitem memory (pc mod 8192) = Ok instruction ->
  selector instruction = 7 ->
  field_9_7 instruction <> 0 ->
  getitem regs (field_12_10 instruction) = Ok a ->
  let imm := imm7 instruction in
  let extended := if 64 <=? imm then imm + 65408 else imm in
  sign_extend_7 imm = extended /\
  simulation pc regs memory =
    Ok (Some ((pc + 1) mod 65536,
              <[Z.to_nat (field_9_7 instruction) := if a <? extended then 1 else 0]> regs,
              memory)).
Proof.
  intros Hr Hf Hs Hd Ha imm extended.
  pose proof (field_9_7_range instruction) as HD.
  assert (E : sign_extend_7 imm = extended)
    by (apply sign_extend_7_value, imm7_range).
  split; [exact E|].
  rewrite (simulation_fetch_2R _ _ _ _ Hf) by lia.
  unfold instruction_2R. rewrite Hs, (field_eqb_false _ 0 Hd). simpl.
  fold imm. rewrite Ha. simpl. rewrite E.
  destruct (a <? extended); now rewrite (write_reg regs Hr) by lia.
Qed.

Lemma slti_compares_with_sign_extended_witness :
  let regs := initial_regs in
  let memory := <[0%nat := 57599]> initial_memory in
  sign_extend_7 (imm7 57599) = 65535 /\
  simulation 0 regs memory = Ok (Some (1, <[1%nat := 1]> regs, memory)).
Proof.
  intros regs memory.
  apply (slti_compares_with_sign_extended 57599 0 regs memory 0);
    [reflexivity | reflexivity | reflexivity | vm_compute; lia | reflexivity].
Defined.

(** ** Register 0 and the next pc *)

Lemma getitem_reg (l : list Z) (i v : Z) :
  0 <= i -> getitem l i = Ok v -> reg l i = v.
Proof.
  intros Hi. unfold getitem, norm_index, reg.
  destruct (Z.ltb_spec i 0); [lia|].
  destruct (in_range l i); [|discriminate].
  destruct (l !! Z.to_nat i); [|discriminate].
  intros [= ->]. reflexivity.
Qed.

Ltac step_tuple :=
  match goal with
  | H : ret _ _ _ = Ok (Some _) |- _ => unfold ret in H; injection H as <- <- <-
  | H : Ok (Some _) = Ok (Some _) |- _ => injection H as <- <- <-
  end.

Lemma instruction_3R_effects instruction pc regs memory pc' regs' memory' :
  len regs = NUM_REGS ->
  selector instruction = 0 ->
  instruction_3R instruction pc regs memory = Ok (Some (pc', regs', memory')) ->
  pc' = next_pc instruction pc regs /\
  (field_6_4 instruction = 0 -> regs' = regs) /\
  memory' = memory.
Proof.
  intros Hr Hs. unfold next_pc. rewrite Hs. simpl (0 =? 0). cbv iota.
  unfold instruction_3R.
  pose proof (field_12_10_range instruction) as HA.
  pose proof (field_9_7_range instruction) as HB.
  pose proof (field_6_4_range instruction) as HD.
  destruct (read_reg regs Hr _ HA) as (a & Ea & _).
  destruct (read_reg regs Hr _ HB) as (b & Eb & _).
  rewrite Ea. simpl.
  destruct (opcode4 instruction =? 8).
  { intros H. step_tuple. rewrite (getitem_reg _ _ _ (proj1 HA) Ea). auto. }
  destruct (Z.eqb_spec (field_6_4 instruction) 0) as [Hd | Hd].
  { intros H. step_tuple. auto. }
  rewrite Eb. simpl.
  repeat match goal with
         | |- context [if ?c =? ?k then _ else _] => destruct (c =? k)
         end;
    try match goal with |- context [a <? b] => destruct (a <? b) end;
    rewrite ?(write_reg regs Hr) by lia; simpl;
    intros H; step_tuple; repeat split; auto; intros; lia.
Qed.

Lemma instruction_0R_effects instruction pc regs memory pc' regs' memory' :
  len regs = NUM_REGS ->
  selector instruction = 2 \/ selector instruction = 3 ->
  instruction_0R instruction pc regs memory = Ok (Some (pc', regs', memory')) ->
  pc' = next_pc instruction pc regs /\ memory' = memory.
Proof.
  intros Hr Hs. unfold next_pc, instruction_0R.
  destruct Hs as [Hs | Hs]; rewrite Hs; simpl.
  - intros H. step_tuple. auto.
  - rewrite (write_reg regs Hr) by lia. simpl. intros H. step_tuple. auto.
Qed.

Lemma instruction_2R_effects instruction pc regs memory pc' regs' memory' :
  len regs = NUM_REGS -> len memory = MEM_SIZE ->
  selector instruction <> 0 -> selector instruction <> 2 ->
  selector instruction <> 3 ->
  instruction_2R instruction pc regs memory = Ok (Some (pc', regs', memory')) ->
  pc' = next_pc instruction pc regs /\
  (field_9_7 instruction = 0 -> regs' = regs) /\
  (selector instruction <> 5 -> memory' = memory).
Proof.
  intros Hr Hm H0 H2 H3. unfold next_pc, instruction_2R.
  pose proof (selector_range instruction) as HS.
  pose proof (field_12_10_range instruction) as HA.
  pose proof (field_9_7_range instruction) as HD.
  destruct (read_reg regs Hr _ HA) as (a & Ea & _).
  destruct (read_reg regs Hr _ HD) as (d & Ed & _).
  rewrite (getitem_reg _ _ _ (proj1 HA) Ea), (getitem_reg _ _ _ (proj1 HD) Ed).
  destruct (read_mem memory Hm _ (effective_address_range a (imm7 instruction)))
    as (w & Ew & _).
  rewrite Ea. simpl.
  destruct (Z.eqb_spec (field_9_7 instruction) 0) as [Hz|Hz];
    destruct (Z.eqb_spec (selector instruction) 0);
    destruct (Z.eqb_spec (selector instruction) 2);
    destruct (Z.eqb_spec (selector instruction) 3);
    destruct (Z.eqb_spec (selector instruction) 7);
    destruct (Z.eqb_spec (selector instruction) 4);
    destruct (Z.eqb_spec (selector instruction) 1);
    destruct (Z.eqb_spec (selector instruction) 5);
    destruct (Z.eqb_spec (selector instruction) 6);
    try lia; simpl;
    rewrite ?Ed, ?Ew; simpl;
    rewrite ?(write_mem memory Hm) by apply effective_address_range; simpl;
    try match goal with
        | |- context [a <? ?x] => destruct (a <? x)
        | |- context [a =? d] => destruct (a =? d)
        end;
    rewrite ?(write_reg regs Hr) by lia; simpl;
    intros H; step_tuple; repeat split; auto; intros; lia.
Qed.

Lemma simulation_effects pc regs memory instruction pc' regs' memory' :
  len regs = NUM_REGS -> len memory = MEM_SIZE ->
  getitem memory (pc mod 8192) = Ok instruction ->
  simulation pc regs memory = Ok (Some (pc', regs', memory')) ->
  pc' = next_pc instruction pc regs /\
  (destination_field instruction = Some 0 -> regs' = regs) /\
  (selector instruction <> 5 -> memory' = memory).
Proof.
  intros Hr Hm Hf. rewrite (simulation_fetch _ _ _ _ Hf). unfold destination_field.
  destruct (Z.eqb_spec (selector instruction) 0) as [H0 | H0].
  { intros H. destruct (instruction_3R_effects _ _ _ _ _ _ _ Hr H0 H) as (? & ? & ?).
    repeat split; auto. intros [= E]. auto. }
  destruct (Z.eqb_spec (selector instruction) 2) as [H2 | H2].
  { intros H. destruct (instruction_0R_effects _ _ _ _ _ _ _ Hr (or_introl H2) H).
    repeat split; auto. discriminate. }
  destruct (Z.eqb_spec (selector instruction) 3) as [H3 | H3].
  { intros H. destruct (instruction_0R_effects _ _ _ _ _ _ _ Hr (or_intror H3) H).
    repeat split; auto. discriminate. }
  intros H.
  destruct (instruction_2R_effects _ _ _ _ _ _ _ Hr Hm H0 H2 H3 H) as (? & ? & ?).
  repeat split; auto. intros [= E]. auto.
Qed.

(** ** The run loop keeps the machine well formed *)

Lemma wf_boot mem : len mem = MEM_SIZE -> wf_machine (boot mem).
Proof. intros Hm. repeat split; [exact Hm]. Qed.

Lemma loop_body_wf m :
  wf_machine m ->
  exists o, loop_body m = Ok o /\ wf_machine (outcome_machine o).
Proof.
  intros (Hr & Hm & Hz). unfold loop_body.
  destruct (simulation_ok _ _ Hr Hm (m_pc m))
    as (pc' & regs' & memory' & -> & _ & Lr & Lm & Z0 & _). simpl.
  assert (Hwf : wf_machine (Machine pc' regs' memory')).
  { repeat split; simpl; congruence. }
  destruct (pc' =? m_pc m); [|eexists; split; [reflexivity | exact Hwf]].
  destruct (getitem_lookup memory' (m_pc m mod 8191)) as (w & -> & _).
  { rewrite Lm, Hm. pose proof (Z.mod_pos_bound (m_pc m) 8191). unfold MEM_SIZE. simpl. lia. }
  simpl. destruct (Z.shiftr w 13 =? 2); eexists; (split; [reflexivity | exact Hwf]).
Qed.

Lemma run_loop_wf fuel : forall m,
  wf_machine m ->
  exists o, run_loop fuel m = Ok o /\ wf_machine (outcome_machine o).
Proof.
  induction fuel as [|fuel IH]; intros m Hwf; simpl.
  - eexists. split; [reflexivity | exact Hwf].
  - destruct (loop_body_wf m Hwf) as ([m' | m'] & -> & Hwf'); simpl.
    + eexists. split; [reflexivity | exact Hwf'].
    + apply IH, Hwf'.
Qed.

(** C2: whatever the program, after any number of rounds of the run loop
    started on zeroed registers the loop has not raised and register 0 holds
    0; the step taken from there hands back the next pc of its instruction
    kind, leaves register 0 at 0, and writes no register at all when the
    instruction's destination-register field is 0. *)
Theorem register_zero_stays_zero (mem : list Z) (fuel : nat) :
  len mem = MEM_SIZE ->
  exists o, run_loop fuel (boot mem) = Ok o /\
    let m := outcome_machine o in
    m_regs m !! 0%nat = Some 0 /\
    exists instruction pc' regs' memory',
      getitem (m_memory m) (m_pc m mod 8192) = Ok instruction /\
      simulation (m_pc m) (m_regs m) (m_memory m) = Ok (Some (pc', regs', memory')) /\
      pc' = next_pc instruction (m_pc m) (m_regs m) /\
      regs' !! 0%nat = Some 0 /\
      (destination_field instruction = Some 0 -> regs' = m_regs m).
Proof.
  intros Hm.
  destruct (run_loop_wf fuel (boot mem) (wf_boot mem Hm)) as (o & Eo & Hr & Hm' & Hz).
  exists o. split; [exact Eo|]. cbv zeta. split; [exact Hz|].
  set (m := outcome_machine o) in *.
  destruct (read_mem _ Hm' (m_pc m mod 8192)) as (instruction & Ef & _);
    [now apply Z.mod_pos_bound|].
  destruct (simulation_ok _ _ Hr Hm' (m_pc m))
    as (pc' & regs' & memory' & Es & _ & _ & _ & Z0 & _).
  destruct (simulation_effects _ _ _ _ _ _ _ Hr Hm' Ef Es) as (Hpc & Hd & _).
  exists instruction, pc', regs', memory'. repeat split; auto. congruence.
Qed.

(** ADDI $0,$0,5 ; ADD $0,$1,$1 ; J 2 : two writes aimed at register 0. *)
Lemma register_zero_stays_zero_witness :
  let mem := <[2%nat := 16386]> (<[1%nat := 1152]> (<[0%nat := 8197]> initial_memory)) in
  exists o, run_loop 3 (boot mem) = Ok o /\
    let m := outcome_machine o in
    m_regs m !! 0%nat = Some 0 /\
    exists instruction pc' regs' memory',
      getitem (m_memory m) (m_pc m mod 8192) = Ok instruction /\
      simulation (m_pc m) (m_regs m) (m_memory m) = Ok (Some (pc', regs', memory')) /\
      pc' = next_pc instruction (m_pc m) (m_regs m) /\
      regs' !! 0%nat = Some 0 /\
      (destination_field instruction = Some 0 -> regs' = m_regs m).
Proof.
  intros mem. apply (register_zero_stays_zero mem 3). vm_compute. reflexivity.
Defined.

(** ** The halt test *)

Lemma getitem_word (l : list Z) (i v : Z) :
  words l -> getitem l i = Ok v -> word v.
Proof.
  intros Hw. unfold getitem.
  destruct (in_range l (norm_index l i)); [|discriminate].
  destruct (l !! Z.to_nat (norm_index l i)) as [x|] eqn:E; [|discriminate].
  intros [= <-]. exact (Forall_lookup_1 _ _ _ _ Hw E).
Qed.

(** Away from the last cell the halt test of [main] is the test on the
    fetched word: for a pc below 8191 the two remainders agree, no
    instruction that comes back to its own pc writes memory, and on a 16-bit
    word the shift is the selector. *)
Lemma loop_body_halt_test m instruction pc' regs' memory' :
  wf_machine m -> words (m_memory m) -> 0 <= m_pc m < 8191 ->
  getitem (m_memory m) (m_pc m mod 8192) = Ok instruction ->
  simulation (m_pc m) (m_regs m) (m_memory m) = Ok (Some (pc', regs', memory')) ->
  loop_body m =
    Ok (if (pc' =? m_pc m) && (selector instruction =? 2)
        then Break (Machine pc' regs' memory')
        else Continue (Machine pc' regs' memory')).
Proof.
  intros (Hr & Hm & _) Hw Hpc Hf Hs. unfold loop_body. rewrite Hs. simpl.
  destruct (Z.eqb_spec pc' (m_pc m)) as [E | E]; [|reflexivity].
  destruct (simulation_effects _ _ _ _ _ _ _ Hr Hm Hf Hs) as (Hn & _ & Hmem).
  assert (H5 : selector instruction <> 5).
  { intros H5. rewrite E in Hn. unfold next_pc in Hn. rewrite H5 in Hn.
    simpl in Hn. unfold valid_pc in Hn. rewrite Z.mod_small in Hn; lia. }
  rewrite (Hmem H5).
  rewrite (Z.mod_small (m_pc m) 8191) by lia.
  rewrite (Z.mod_small (m_pc m) 8192) in Hf by lia.
  rewrite Hf. simpl.
  rewrite (shiftr_13_selector _ (getitem_word _ _ _ Hw Hf)).
  destruct (selector instruction =? 2); reflexivity.
Qed.

Lemma run_loop_fixed m :
  loop_body m = Ok (Continue m) -> forall fuel, run_loop fuel m = Ok (Continue m).
Proof.
  intros Hb fuel. induction fuel as [|fuel IH]; [reflexivity|].
  simpl. rewrite Hb. simpl. exact IH.
Qed.

(** A JAL whose target is its own address, anywhere below the last cell:
    every round writes pc+1 to register 7 and the loop goes on. *)
Lemma jal_self_jump_below_8191 m instruction :
  wf_machine m -> words (m_memory m) -> 0 <= m_pc m < 8191 ->
  getitem (m_memory m) (m_pc m mod 8192) = Ok instruction ->
  selector instruction = 3 -> imm13 instruction = m_pc m ->
  forall fuel,
    run_loop (S fuel) m =
      Ok (Continue (Machine (m_pc m)
                            (<[7%nat := (m_pc m + 1) mod 65536]> (m_regs m))
                            (m_memory m))).
Proof.
  intros Hwf Hw Hpc Hf Hs Hi.
  assert (Hbody : forall regs, len regs = NUM_REGS -> regs !! 0%nat = Some 0 ->
            loop_body (Machine (m_pc m) regs (m_memory m)) =
              Ok (Continue (Machine (m_pc m)
                                    (<[7%nat := (m_pc m + 1) mod 65536]> regs)
                                    (m_memory m)))).
  { intros regs Hr Hz.
    assert (Es : simulation (m_pc m) regs (m_memory m) =
                   Ok (Some (m_pc m, <[7%nat := (m_pc m + 1) mod 65536]> regs, m_memory m))).
    { rewrite (simulation_fetch _ _ _ _ Hf), Hs. simpl.
      unfold instruction_0R. rewrite Hs. simpl.
      rewrite (write_reg regs Hr) by lia. simpl.
      rewrite Hi, keep_16bits_mod. unfold valid_pc. rewrite (Z.mod_small (m_pc m)) by lia.
      reflexivity. }
    destruct Hwf as (_ & Hm & _).
    rewrite (loop_body_halt_test (Machine (m_pc m) regs (m_memory m)) instruction _ _ _
               (conj Hr (conj Hm Hz)) Hw Hpc Hf Es).
    rewrite Hs. now rewrite andb_false_r. }
  intros fuel. destruct Hwf as (Hr & Hm & Hz).
  change (run_loop (S fuel) m) with
    (let* o := loop_body m in
     match o with Break m' => Ok (Break m') | Continue m' => run_loop fuel m' end).
  replace m with (Machine (m_pc m) (m_regs m) (m_memory m)) at 1 by (now destruct m).
  rewrite (Hbody _ Hr Hz). simpl.
  apply run_loop_fixed. rewrite Hbody.
  - now rewrite list_insert_insert_eq.
  - now rewrite len_insert.
  - now rewrite list_lookup_insert_ne.
Qed.

(** C1 fails on the code: [image_j_last] holds JAL 8191 in cell 0 and J 8191
    in cell 8191.  One round takes the machine to pc 8191; there the fetched
    word has selector 010 and the step comes back to pc 8191, yet the halt
    test reads cell 8191 mod 8191 = 0 and the loop runs on for ever. *)
Theorem halt_test_skips_self_jump_at_8191 :
  let m := Machine 8191 (<[7%nat := 1]> initial_regs) image_j_last in
  run_loop 1 (boot image_j_last) = Ok (Continue m) /\
  getitem (m_memory m) (m_pc m mod 8192) = Ok 24575 /\
  selector 24575 = 2 /\
  simulation (m_pc m) (m_regs m) (m_memory m)
  = Ok (Some (m_pc m, m_regs m, m_memory m)) /\
  getitem (m_memory m) (m_pc m mod 8191) = Ok 32767 /\
  forall fuel, run_loop fuel m = Ok (Continue m).
Proof.
  intros m.
  assert (Hbody : loop_body m = Ok (Continue m)) by (vm_compute; reflexivity).
  repeat match goal with |- _ /\ _ => split end;
    [vm_compute; reflexivity .. | exact (run_loop_fixed m Hbody)].
Qed.

(** The same slip the other way round: J 8191 in cell 0 and the self-branch
    JEQ $0,$0,-1 (word 49279, selector 110) in cell 8191.  The loop halts on
    a word that is not a J. *)
Lemma halt_test_fires_on_jeq_at_8191 :
  let image := <[Z.to_nat 8191 := 49279]> (<[0%nat := 24575]> initial_memory) in
  selector 49279 = 6 /\
  run_loop 2 (boot image) = Ok (Break (Machine 8191 initial_regs image)).
Proof. split; vm_compute; reflexivity. Qed.

(** C3 fails on the code: [image_jal_last] holds J 8191 in cell 0 and
    JAL 8191 in cell 8191, a JAL whose immediate is its own address.  The
    second round executes it, writes 8192 to register 7, and the halt test,
    reading cell 0, breaks the loop. *)
Theorem jal_self_jump_at_8191_halts :
  selector 32767 = 3 /\ imm13 32767 = 8191 /\
  getitem image_jal_last 8191 = Ok 32767 /\
  run_loop 2 (boot image_jal_last)
  = Ok (Break (Machine 8191 (<[7%nat := 8192]> initial_regs) image_jal_last)).
Proof.
  repeat match goal with |- _ /\ _ => split end; vm_compute; reflexivity.
Qed.

(** ** The loader *)

Section LoaderFacts.

Lemma decimal_value_range (c d : Z) : decimal_value c = Some d -> 0 <= d < 10.
Proof.
  unfold decimal_value.
  destruct (find _ decimal_zeros) as [zero|] eqn:E; [|discriminate].
  apply find_some in E as [_ E]. intros [= <-]. lia.
Qed.

Lemma is_digit_value (c : Z) :
  is_digit c = true -> exists d, decimal_value c = Some d /\ 0 <= d < 10.
Proof.
  unfold is_digit. destruct (decimal_value c) as [d|] eqn:E; [|discriminate].
  intros _. exists d. split; [reflexivity | now apply decimal_value_range in E].
Qed.

(** Nothing that [(\d+)] has read is refused as a decimal numeral. *)
Lemma int_acc_span_digits (s : list Z) : forall acc,
  exists v, int_acc 10 acc (fst (span_digits s)) = Some v.
Proof.
  induction s as [|c s IH]; intros acc; simpl; [eauto|].
  destruct (is_digit c) eqn:Hc; simpl; [|eauto].
  destruct (span_digits s) as [d r]. simpl in *.
  destruct (is_digit_value c Hc) as (v & -> & Hv).
  destruct (Z.ltb_spec v 10); [apply IH | lia].
Qed.

Lemma int_10_long (s : list Z) :
  int_max_str_digits < len s -> int s 10 = Raise ValueError_digits.
Proof.
  intros H. unfold int. destruct s as [|c s]; [unfold len, int_max_str_digits in H; simpl in H; lia|].
  destruct (Z.ltb_spec int_max_str_digits (len (c :: s))); [reflexivity | lia].
Qed.

(** [int(addr, 10)] on the address group: too long, or a number. *)
Lemma machine_code_re_address line addr_s instr_s :
  machine_code_re line = Some (addr_s, instr_s) ->
  (int_max_str_digits < len addr_s /\ int addr_s 10 = Raise ValueError_digits) \/
  (len addr_s <= int_max_str_digits /\ exists addr, int addr_s 10 = Ok addr).
Proof.
  unfold machine_code_re.
  destruct (strip_prefix (text "ram[") line) as [s1|]; [|discriminate].
  destruct (int_acc_span_digits s1 0) as (v & Hv).
  destruct (span_digits s1) as [a s2]. simpl in Hv.
  destruct a as [|c a]; [discriminate|].
  destruct (strip_prefix (text "] = 16'b") s2) as [s3|]; [|discriminate].
  destruct (span_digits s3) as [d s4].
  destruct d as [|c' d]; [discriminate|].
  destruct (strip_prefix (text ";") s4) as [s5|]; [|discriminate].
  destruct (dot_star_end s5); [|discriminate].
  intros [= <- <-].
  destruct (Z.ltb_spec int_max_str_digits (len (c :: a))) as [Hlong | Hshort].
  - left. split; [exact Hlong | now apply int_10_long].
  - right. split; [exact Hshort|]. exists v. unfold int.
    destruct (Z.ltb_spec int_max_str_digits (len (c :: a))); [lia|].
    change (negb (power_of_two 10)) with true. cbn [andb]. now rewrite Hv.
Qed.

Lemma int_2_raises (s : list Z) (e : exn) : int s 2 = Raise e -> e = ValueError_literal.
Proof.
  unfold int. destruct s as [|c s]; [now intros [= <-]|].
  change (negb (power_of_two 2)) with false. cbn [andb].
  destruct (int_acc 2 0 (c :: s)); [discriminate | now intros [= <-]].
Qed.

Lemma accepted_not_rejected (cap i : Z) (line addr_s instr_s : list Z) (w : Z) :
  machine_code_re line = Some (addr_s, instr_s) ->
  int addr_s 10 = Ok i -> int instr_s 2 = Ok w -> i < cap ->
  ~ rejected cap i line.
Proof.
  intros Hre Ha Hd Hi
         [Hnone | (a & d & Hre' & [Hlong | [Hlit | (addr & Haddr & Hbad)]])].
  - congruence.
  - rewrite Hre in Hre'. injection Hre' as <- <-.
    rewrite (int_10_long _ Hlong) in Ha. discriminate.
  - rewrite Hre in Hre'. injection Hre' as <- <-. congruence.
  - rewrite Hre in Hre'. injection Hre' as <- <-.
    rewrite Ha in Haddr. injection Haddr as <-. lia.
Qed.

(** What [load_lines] leaves behind, the expected address being [n]: the
    words [ws] of the lines it accepted sit in cells [n], [n+1], ..., the
    rest of the memory is as before, and it raises exactly when a line is
    left, which is then a rejected one. *)
Lemma load_lines_spec (lines : list (list Z)) : forall (n : nat) (mem : list Z),
  exists ws : list Z,
    fst (load_lines lines (Z.of_nat n) mem)
    = take n mem ++ ws ++ drop (n + length ws) mem /\
    (length ws <= length lines)%nat /\
    (ws = [] \/ (n + length ws <= length mem)%nat) /\
    (forall (i : nat) line, lines !! i = Some line -> (i < length ws)%nat ->
       exists addr_s instr_s w,
         machine_code_re line = Some (addr_s, instr_s) /\
         int addr_s 10 = Ok (Z.of_nat (n + i)) /\
         int instr_s 2 = Ok w /\
         ws !! i = Some w) /\
    (raises (snd (load_lines lines (Z.of_nat n) mem)) = false ->
       length ws = length lines) /\
    (raises (snd (load_lines lines (Z.of_nat n) mem)) = true ->
       exists line, lines !! length ws = Some line /\
         rejected (len mem) (Z.of_nat (n + length ws)) line).
Proof.
  induction lines as [|line rest IH]; intros n mem.
  { exists []. simpl. rewrite Nat.add_0_r, take_drop.
    repeat split; auto; try discriminate. }
  assert (Hstop : forall r : result unit,
             raises r = true ->
             load_lines (line :: rest) (Z.of_nat n) mem = (mem, r) ->
             rejected (len mem) (Z.of_nat n) line ->
             exists ws : list Z,
               fst (load_lines (line :: rest) (Z.of_nat n) mem)
               = take n mem ++ ws ++ drop (n + length ws) mem /\
               (length ws <= length (line :: rest))%nat /\
               (ws = [] \/ (n + length ws <= length mem)%nat) /\
               (forall (i : nat) l, (line :: rest) !! i = Some l -> (i < length ws)%nat ->
                  exists addr_s instr_s w,
                    machine_code_re l = Some (addr_s, instr_s) /\
                    int addr_s 10 = Ok (Z.of_nat (n + i)) /\
                    int instr_s 2 = Ok w /\
                    ws !! i = Some w) /\
               (raises (snd (load_lines (line :: rest) (Z.of_nat n) mem)) = false ->
                  length ws = length (line :: rest)) /\
               (raises (snd (load_lines (line :: rest) (Z.of_nat n) mem)) = true ->
                  exists l, (line :: rest) !! length ws = Some l /\
                    rejected (len mem) (Z.of_nat (n + length ws)) l)).
  { intros r Hr E Hrej. exists []. rewrite E. simpl.
    rewrite Nat.add_0_r, take_drop.
    repeat split; auto; try lia.
    - congruence.
    - intros _. exists line. split; [reflexivity | exact Hrej]. }
  destruct (machine_code_re line) as [[addr_s instr_s]|] eqn:Hre.
  2: { apply (Hstop (Raise ValueError_parse)); [reflexivity | | now left].
       simpl. now rewrite Hre. }
  destruct (machine_code_re_address _ _ _ Hre)
    as [(Hlong & Haddr) | (Hshort & addr & Haddr)].
  { apply (Hstop (Raise ValueError_digits)); [reflexivity | |].
    - simpl. now rewrite Hre, Haddr.
    - right. exists addr_s, instr_s. auto. }
  destruct (int instr_s 2) as [instr | e] eqn:Hinstr.
  2: { apply (Hstop (Raise e)); [reflexivity | |].
       - simpl. now rewrite Hre, Haddr, Hinstr.
       - right. exists addr_s, instr_s. split; [exact Hre|]. right. left.
         now rewrite (int_2_raises _ _ Hinstr) in Hinstr. }
  destruct (Z.eqb_spec addr (Z.of_nat n)) as [Heq | Hne].
  2: { apply (Hstop (Raise ValueError_sequence)); [reflexivity | |].
       - simpl. rewrite Hre, Haddr, Hinstr. now rewrite (field_eqb_false _ _ Hne).
       - right. exists addr_s, instr_s. split; [exact Hre|]. right. right.
         exists addr. auto. }
  destruct (Z.leb_spec (len mem) addr) as [Hcap | Hcap].
  { apply (Hstop (Raise ValueError_capacity)); [reflexivity | |].
    - simpl. rewrite Hre, Haddr, Hinstr, Heq, Z.eqb_refl. simpl.
      destruct (Z.leb_spec (len mem) (Z.of_nat n)); [reflexivity | lia].
    - right. exists addr_s, instr_s. split; [exact Hre|]. right. right.
      exists addr. auto. }
  (* the line is accepted *)
  assert (Hn : (n < length mem)%nat) by (unfold len in Hcap; lia).
  assert (Estep : load_lines (line :: rest) (Z.of_nat n) mem
                  = load_lines rest (Z.of_nat (S n)) (<[n := instr]> mem)).
  { simpl. rewrite Hre, Haddr, Hinstr, Heq, Z.eqb_refl. simpl.
    destruct (Z.leb_spec (len mem) (Z.of_nat n)); [lia|].
    rewrite setitem_insert by (unfold len; lia).
    rewrite Nat2Z.id. f_equal. lia. }
  destruct (IH (S n) (<[n := instr]> mem))
    as (ws & Hmem & Hlen & Hfit & Hacc & Hok & Hraise).
  exists (instr :: ws). rewrite Estep.
  split; [|split; [|split; [|split; [|split]]]].
  - rewrite Hmem.
    rewrite (take_S_r _ _ instr) by (now apply list_lookup_insert_eq).
    rewrite take_insert_ge by lia.
    rewrite drop_insert_lt by lia.
    rewrite <- app_assoc. simpl.
    now replace (n + S (length ws))%nat with (S (n + length ws)) by lia.
  - simpl. lia.
  - right. simpl. destruct Hfit as [-> | Hfit]; [simpl; lia|].
    rewrite length_insert in Hfit. lia.
  - intros [|i] l Hl Hi.
    + injection Hl as <-. exists addr_s, instr_s, instr.
      rewrite Nat.add_0_r, <- Heq. auto.
    + simpl in Hl, Hi. destruct (Hacc i l Hl) as (a & d & w & ? & Ha & ? & ?); [lia|].
      exists a, d, w. replace (n + S i)%nat with (S n + i)%nat by lia. auto.
  - intros H. simpl. now rewrite (Hok H).
  - intros H. destruct (Hraise H) as (l & Hl & Hrej).
    exists l. split; [exact Hl|]. rewrite len_insert in Hrej.
    simpl. now replace (n + S (length ws))%nat with (S n + length ws)%nat by lia.
Qed.

End LoaderFacts.

(** C9, as stated, fails, whichever pattern is the expected one.

    If it is the loader's own pattern, take the one-line file
    [ram[0] = 16'b2;]: the line matches (both groups are [\d+]), its address
    0 is the expected one and is below 8192, yet the loader raises, because
    [int("2", 2)] does.

    If it is the format of the interface description, with its 16 binary
    digits, take the one-line file [ram[0] = 16'b1;]: the line is not of
    that format, yet the loader raises nothing and writes 1 to cell 0. *)
Lemma loader_three_conditions_counterexample :
  let bad := [text "ram[0] = 16'b2;"] in
  let short := [text "ram[0] = 16'b1;"] in
  (machine_code_re (text "ram[0] = 16'b2;") = Some (text "0", text "2") /\
   int (text "0") 10 = Ok 0 /\
   load_machine_code bad initial_memory = (initial_memory, Raise ValueError_literal) /\
   ~ (raises (snd (load_machine_code bad initial_memory)) = true <->
      exists (i : nat) line, bad !! i = Some line /\
        rejected_by_pattern_sequence_capacity (len initial_memory) (Z.of_nat i) line)) /\
  (~ spec_line (text "ram[0] = 16'b1;") /\
   load_machine_code short initial_memory = (<[0%nat := 1]> initial_memory, Ok tt) /\
   ~ (raises (snd (load_machine_code short initial_memory)) = true <->
      exists (i : nat) line, short !! i = Some line /\
        rejected_by_spec_line_sequence_capacity (len initial_memory) (Z.of_nat i) line)).
Proof.
  intros bad short.
  assert (Hshort : ~ spec_line (text "ram[0] = 16'b1;")).
  { intros (a & d & rest & E & _ & _ & Hd & _).
    apply (f_equal (@length Z)) in E. unfold ram_text in E.
    rewrite !length_app, Hd in E.
    change (length (text "ram[0] = 16'b1;")) with 15%nat in E.
    change (length (text "ram[")) with 4%nat in E. lia. }
  split; [|split; [exact Hshort | split]].
  - split; [vm_compute; reflexivity|].
    split; [vm_compute; reflexivity|].
    split; [vm_compute; reflexivity|].
    intros [H _].
    destruct H as (i & line & Hl & Hrej); [vm_compute; reflexivity|].
    destruct i as [|i]; [|discriminate Hl]. injection Hl as <-.
    destruct Hrej as [Hnone | (a & d & Hre & addr & Haddr & Hbad)].
    + vm_compute in Hnone. discriminate Hnone.
    + vm_compute in Hre. injection Hre as <- <-.
      vm_compute in Haddr. injection Haddr as <-.
      assert (L : len initial_memory = 8192) by (vm_compute; reflexivity).
      rewrite L in Hbad. simpl in Hbad. lia.
  - vm_compute. reflexivity.
  - intros [_ H].
    assert (E : raises (snd (load_machine_code short initial_memory)) = false)
      by (vm_compute; reflexivity).
    assert (F : raises (snd (load_machine_code short initial_memory)) = true).
    { apply H. exists 0%nat, (text "ram[0] = 16'b1;").
      split; [reflexivity|]. now left. }
    rewrite E in F. discriminate F.
Qed.

(** The loader, line by line: it raises exactly when some line is rejected
    at its own line number; the words of the lines before the first such
    line fill the first cells and the rest of the memory is untouched. *)
Lemma load_machine_code_spec (lines : list (list Z)) (mem : list Z) :
  (raises (snd (load_machine_code lines mem)) = true <->
   exists (i : nat) line, lines !! i = Some line /\
     rejected (len mem) (Z.of_nat i) line) /\
  (exists ws : list Z,
     fst (load_machine_code lines mem) = ws ++ drop (length ws) mem /\
     (length ws <= length lines)%nat /\
     (forall (i : nat) line, lines !! i = Some line -> (i < length ws)%nat ->
        ~ rejected (len mem) (Z.of_nat i) line /\
        exists addr_s instr_s w,
          machine_code_re line = Some (addr_s, instr_s) /\
          int instr_s 2 = Ok w /\ ws !! i = Some w) /\
     (raises (snd (load_machine_code lines mem)) = false ->
        length ws = length lines) /\
     (raises (snd (load_machine_code lines mem)) = true ->
        exists line, lines !! length ws = Some line /\
          rejected (len mem) (Z.of_nat (length ws)) line)).
Proof.
  unfold load_machine_code.
  destruct (load_lines_spec lines 0 mem)
    as (ws & Hmem & Hlen & Hfit & Hacc & Hok & Hraise).
  change (Z.of_nat 0) with 0 in *. simpl in Hmem, Hfit, Hraise.
  assert (Hgood : forall (i : nat) line, lines !! i = Some line -> (i < length ws)%nat ->
            ~ rejected (len mem) (Z.of_nat i) line /\
            exists addr_s instr_s w,
              machine_code_re line = Some (addr_s, instr_s) /\
              int instr_s 2 = Ok w /\ ws !! i = Some w).
  { intros i line Hl Hi.
    destruct (Hacc i line Hl Hi) as (a & d & w & Hre & Ha & Hd & Hw).
    split; [|eauto 6].
    apply (accepted_not_rejected _ _ _ _ _ _ Hre Ha Hd).
    destruct Hfit as [-> | Hfit]; [simpl in Hi; lia|]. unfold len. lia. }
  split.
  - split.
    + intros H. destruct (Hraise H) as (line & Hl & Hrej). eauto.
    + intros (i & line & Hl & Hrej).
      destruct (raises (snd (load_lines lines 0 mem))) eqn:E; [reflexivity|].
      exfalso. apply (Hgood i line Hl); [|exact Hrej].
      rewrite (Hok eq_refl). now apply lookup_lt_Some in Hl.
  - exists ws. repeat split; try assumption; apply (Hgood i line); assumption.
Qed.

(** The loader scenario of 8193 lines with addresses 0..8192: the last line
    has an address at the capacity, so the load fails. *)
Lemma load_8193_lines_too_big :
  raises (snd (load_machine_code (sequential_file (Z.to_nat 8193)) initial_memory))
  = true.
Proof.
  apply load_machine_code_spec.
  exists (Z.to_nat 8192), (ram_line (Z.to_nat 8192) "0000000000000000").
  split.
  - unfold sequential_file. rewrite list_lookup_fmap, lookup_seq_lt by lia.
    reflexivity.
  - right. exists (text "8192"), (text "0000000000000000").
    split; [vm_compute; reflexivity|]. right. right. exists 8192.
    split; [vm_compute; reflexivity|]. right.
    unfold initial_memory. rewrite len_replicate by (unfold MEM_SIZE; lia).
    unfold MEM_SIZE. simpl. lia.
Qed.

(** C9, amended: the loader raises exactly when some line does not match
    the pattern [ram[<digits>] = 16'b<digits>;<rest>], or has an address of
    more than 4300 digits, or has a data digit other than 0 and 1, or has an
    address other than its zero-based line number, or has an address at or
    beyond the length of the memory.  The lines before the first such line
    are all written, cell i getting the word of line i, and nothing else in
    memory changes; [main] re-raises the error without running the loop and
    without printing.  A step of the executor on 8 registers and 8192 cells
    raises nothing. *)
Theorem loader_failure_conditions
        (lines : list (list Z)) (mem : list Z) (fuel : nat)
        (pc : Z) (regs memory : list Z) :
  len regs = NUM_REGS -> len memory = MEM_SIZE ->
  (raises (snd (load_machine_code lines mem)) = true <->
   exists (i : nat) line, lines !! i = Some line /\
     rejected (len mem) (Z.of_nat i) line) /\
  (exists ws : list Z,
     fst (load_machine_code lines mem) = ws ++ drop (length ws) mem /\
     (length ws <= length lines)%nat /\
     (forall (i : nat) line, lines !! i = Some line -> (i < length ws)%nat ->
        ~ rejected (len mem) (Z.of_nat i) line /\
        exists addr_s instr_s w,
          machine_code_re line = Some (addr_s, instr_s) /\
          int instr_s 2 = Ok w /\ ws !! i = Some w) /\
     (raises (snd (load_machine_code lines mem)) = false ->
        length ws = length lines) /\
     (raises (snd (load_machine_code lines mem)) = true ->
        exists line, lines !! length ws = Some line /\
          rejected (len mem) (Z.of_nat (length ws)) line)) /\
  (forall e, snd (load_machine_code lines initial_memory) = Raise e ->
     main lines fuel = Raise e /\
     forall failure print_failure,
       main_program (FileYields lines failure print_failure) fuel = Raise e) /\
  exists v, simulation pc regs memory = Ok (Some v).
Proof.
  intros Hr Hm.
  destruct (load_machine_code_spec lines mem) as (Hiff & Hws).
  split; [exact Hiff|]. split; [exact Hws|]. split.
  - intros e He. unfold main, main_program.
    destruct (load_machine_code lines initial_memory) as [mem' r]. simpl in He.
    rewrite He. auto.
  - destruct (simulation_ok _ _ Hr Hm pc) as (pc' & regs' & memory' & E & _).
    eauto.
Qed.

(** The file with addresses 0, 1, 3: the two first words are written, the
    third line is rejected. *)
Lemma loader_failure_conditions_witness :
  let lines := [ram_line 0 "0010000010000101"; ram_line 1 "0100000000000001";
                ram_line 3 "0000000000000000"] in
  load_machine_code lines initial_memory
  = (<[1%nat := 16385]> (<[0%nat := 8325]> initial_memory), Raise ValueError_sequence) /\
  (raises (snd (load_machine_code lines initial_memory)) = true <->
   exists (i : nat) line, lines !! i = Some line /\
     rejected (len initial_memory) (Z.of_nat i) line) /\
  (forall e, snd (load_machine_code lines initial_memory) = Raise e ->
     main lines 0 = Raise e /\
     forall failure print_failure,
       main_program (FileYields lines failure print_failure) 0 = Raise e) /\
  exists v, simulation 0 initial_regs initial_memory = Ok (Some v).
Proof.
  intros lines. split; [vm_compute; reflexivity|].
  destruct (loader_failure_conditions lines initial_memory 0 0
              initial_regs initial_memory)
    as (Hiff & _ & Hmain & Hstep); [reflexivity | reflexivity |].
  exact (conj Hiff (conj Hmain Hstep)).
Defined.

(** The end-to-end scenario: ADDI $1,$0,5 ; J 1 halts in the second round
    with pc 1 and register 1 holding 5. *)
Lemma main_addi_then_halt :
  main [ram_line 0 "0010000010000101"; ram_line 1 "0100000000000001"] 2
  = Ok (Break (Machine 1 (<[1%nat := 5]> initial_regs)
                       (<[1%nat := 16385]> (<[0%nat := 8325]> initial_memory)))).
Proof. vm_compute. reflexivity. Qed.
(** * Further properties of the executors *)

Section BitwiseWords.

Lemma keep_16bits_word v : word v -> keep_16bits v = v.
Proof. intros Hv. rewrite keep_16bits_mod. apply Z.mod_small. exact Hv. Qed.

Lemma land_ones_word v : word v -> Z.land v (Z.ones 16) = v.
Proof. intros Hv. rewrite Z.land_ones by lia. apply Z.mod_small. exact Hv. Qed.

Lemma keep_16bits_lor a b : word a -> word b -> keep_16bits (Z.lor a b) = Z.lor a b.
Proof.
  intros Ha Hb. unfold keep_16bits. change (Z.shiftl 1 16 - 1) with (Z.ones 16).
  now rewrite Z.land_lor_distr_l, !land_ones_word.
Qed.

Lemma keep_16bits_land a b : word b -> keep_16bits (Z.land a b) = Z.land a b.
Proof.
  intros Hb. unfold keep_16bits. change (Z.shiftl 1 16 - 1) with (Z.ones 16).
  now rewrite <- Z.land_assoc, land_ones_word.
Qed.

End BitwiseWords.

(** X1: OR and AND with a nonzero destination store the bitwise or and the
    bitwise and of the two source registers; on 16-bit register values
    nothing is cut off.  Memory is unchanged and the next pc is
    (pc+1) mod 65536. *)
Theorem or_and_bitwise (instruction pc : Z) (regs memory : list Z) (a b : Z) :
  len regs = NUM_REGS ->
  getitem memory (pc mod 8192) = Ok instruction ->
  selector instruction = 0 ->
  field_6_4 instruction <> 0 ->
  getitem regs (field_12_10 instruction) = Ok a -> word a ->
  getitem regs (field_9_7 instruction) = Ok b -> word b ->
  (opcode4 instruction = 2 ->
   simulation pc regs memory =
     Ok (Some ((pc + 1) mod 65536,
               <[Z.to_nat (field_6_4 instruction) := Z.lor a b]> regs, memory))) /\
  (opcode4 instruction = 3 ->
   simulation pc regs memory =
     Ok (Some ((pc + 1) mod 65536,
               <[Z.to_nat (field_6_4 instruction) := Z.land a b]> regs, memory))).
Proof.
  intros Hr Hf Hs Hd Ha Wa Hb Wb.
  pose proof (field_6_4_range instruction) as HD.
  rewrite (simulation_fetch _ _ _ _ Hf), Hs. simpl (0 =? 0). cbv iota.
  unfold instruction_3R. rewrite (field_eqb_false _ 0 Hd).
  split; intros Hop; rewrite Hop; simpl; rewrite Ha, Hb; simpl;
    rewrite (write_reg regs Hr) by lia;
    [rewrite keep_16bits_lor by assumption | rewrite keep_16bits_land by assumption];
    reflexivity.
Qed.

(** OR $3,$1,$2 (word 1330) and AND $3,$1,$2 (word 1331) on 0xF0F0, 0x0FF0. *)
Lemma or_and_bitwise_witness :
  let regs := [0; 61680; 4080; 0; 0; 0; 0; 0] in
  simulation 0 regs [1330] = Ok (Some (1, <[3%nat := 65520]> regs, [1330])) /\
  simulation 0 regs [1331] = Ok (Some (1, <[3%nat := 240]> regs, [1331])).
Proof.
  intros regs. split.
  - apply (or_and_bitwise 1330 0 regs [1330] 61680 4080);
      try reflexivity; try (unfold word; lia); vm_compute; lia.
  - apply (or_and_bitwise 1331 0 regs [1331] 61680 4080);
      try reflexivity; try (unfold word; lia); vm_compute; lia.
Defined.

(** X2: SLT with a nonzero destination stores 1 when the value of regSrcA
    is below the value of regSrcB, read as the non-negative numbers the
    registers hold, and 0 otherwise. *)
Theorem slt_unsigned_compare (instruction pc : Z) (regs memory : list Z) (a b : Z) :
  len regs = NUM_REGS ->
  getitem memory (pc mod 8192) = Ok instruction ->
  selector instruction = 0 -> opcode4 instruction = 4 ->
  field_6_4 instruction <> 0 ->
  getitem regs (field_12_10 instruction) = Ok a ->
  getitem regs (field_9_7 instruction) = Ok b ->
  simulation pc regs memory =
    Ok (Some ((pc + 1) mod 65536,
              <[Z.to_nat (field_6_4 instruction) := if a <? b then 1 else 0]> regs,
              memory)).
Proof.
  intros Hr Hf Hs Hop Hd Ha Hb.
  pose proof (field_6_4_range instruction) as HD.
  rewrite (simulation_fetch _ _ _ _ Hf), Hs. simpl (0 =? 0). cbv iota.
  unfold instruction_3R. rewrite (field_eqb_false _ 0 Hd), Hop. simpl.
  rewrite Ha, Hb. simpl.
  destruct (a <? b); now rewrite (write_reg regs Hr) by lia.
Qed.

(** SLT $3,$1,$2 (word 1332): 65535 is not below 1, although it is -1 as a
    signed 16-bit number. *)
Lemma slt_unsigned_compare_witness :
  let regs := [0; 65535; 1; 9; 0; 0; 0; 0] in
  simulation 0 regs [1332] = Ok (Some (1, <[3%nat := 0]> regs, [1332])).
Proof.
  intros regs.
  apply (slt_unsigned_compare 1332 0 regs [1332] 65535 1);
    try reflexivity; vm_compute; lia.
Defined.

(** X3: JR jumps to the value of regSrcA reduced modulo 65536 and changes
    neither registers nor memory, whatever its other fields hold: the
    opcode is tested before the destination field. *)
Theorem jr_jumps_to_register (instruction pc : Z) (regs memory : list Z) (a : Z) :
  getitem memory (pc mod 8192) = Ok instruction ->
  selector instruction = 0 -> opcode4 instruction = 8 ->
  getitem regs (field_12_10 instruction) = Ok a ->
  simulation pc regs memory = Ok (Some (a mod 65536, regs, memory)).
Proof.
  intros Hf Hs Hop Ha.
  rewrite (simulation_fetch _ _ _ _ Hf), Hs. simpl (0 =? 0). cbv iota.
  unfold instruction_3R. rewrite Hop. simpl. rewrite Ha. reflexivity.
Qed.

(** JR $7 with a nonzero destination field (word 7192 = 000 111 000 001 1000). *)
Lemma jr_jumps_to_register_witness :
  let regs := [0; 0; 0; 0; 0; 0; 0; 40000] in
  simulation 0 regs [7192] = Ok (Some (40000, regs, [7192])).
Proof.
  intros regs. apply (jr_jumps_to_register 7192 0 regs [7192] 40000); reflexivity.
Defined.

Lemma valid_pc_imm13 instruction : valid_pc (imm13 instruction) = imm13 instruction.
Proof.
  unfold valid_pc. pose proof (imm13_range instruction). apply Z.mod_small. lia.
Qed.

Lemma guard_2R_false (instruction : Z) (k : Z) :
  selector instruction = k -> k <> 7 -> k <> 4 -> k <> 1 ->
  (field_9_7 instruction =? 0)
  && ((selector instruction =? 7) || (selector instruction =? 4)
      || (selector instruction =? 1)) = false.
Proof.
  intros Hs H7 H4 H1. rewrite Hs.
  rewrite (field_eqb_false _ 7 H7), (field_eqb_false _ 4 H4), (field_eqb_false _ 1 H1).
  apply andb_false_r.
Qed.

(** X4: JEQ changes neither registers nor memory; the next pc is
    (pc + 1 + signed immediate) mod 65536 when the two registers hold the
    same value and (pc + 1) mod 65536 otherwise. *)
Theorem jeq_branch_target (instruction pc : Z) (regs memory : list Z) (a d : Z) :
  getitem memory (pc mod 8192) = Ok instruction ->
  selector instruction = 6 ->
  getitem regs (field_12_10 instruction) = Ok a ->
  getitem regs (field_9_7 instruction) = Ok d ->
  let imm := imm7 instruction in
  let rel := if 64 <=? imm then imm - 128 else imm in
  simulation pc regs memory =
    Ok (Some ((if a =? d then pc + 1 + rel else pc + 1) mod 65536, regs, memory)).
Proof.
  intros Hf Hs Ha Hd imm rel.
  rewrite (simulation_fetch_2R _ _ _ _ Hf) by lia.
  unfold instruction_2R. rewrite (guard_2R_false _ 6 Hs) by lia.
  rewrite Hs. simpl. fold imm. rewrite Ha. simpl. rewrite Hd. simpl.
  rewrite sign_number_converter_value by apply imm7_range. fold rel.
  destruct (a =? d); reflexivity.
Qed.

(** JEQ $1,$2,-3 at pc 1 with equal registers goes back to 65535 (the
    target -1 wraps), with different registers on to 2. *)
Lemma jeq_branch_target_witness :
  simulation 1 [0; 4; 4; 0; 0; 0; 0; 0] [0; 50557]
  = Ok (Some (65535, [0; 4; 4; 0; 0; 0; 0; 0], [0; 50557])) /\
  simulation 1 [0; 4; 5; 0; 0; 0; 0; 0] [0; 50557]
  = Ok (Some (2, [0; 4; 5; 0; 0; 0; 0; 0], [0; 50557])).
Proof.
  split.
  - apply (jeq_branch_target 50557 1 [0; 4; 4; 0; 0; 0; 0; 0] [0; 50557] 4 4);
      reflexivity.
  - apply (jeq_branch_target 50557 1 [0; 4; 5; 0; 0; 0; 0; 0] [0; 50557] 4 5);
      reflexivity.
Defined.

(** X5: ADDI with a nonzero destination stores (value of regSrc + signed
    immediate) mod 65536 into regDst; with destination 0 it changes
    nothing.  Either way memory is unchanged and the next pc is
    (pc+1) mod 65536. *)
Theorem addi_adds_signed_immediate (instruction pc : Z) (regs memory : list Z) (a : Z) :
  len regs = NUM_REGS ->
  getitem memory (pc mod 8192) = Ok instruction ->
  selector instruction = 1 ->
  getitem regs (field_12_10 instruction) = Ok a ->
  let imm := imm7 instruction in
  let rel := if 64 <=? imm then imm - 128 else imm in
  simulation pc regs memory =
    Ok (Some ((pc + 1) mod 65536,
              (if field_9_7 instruction =? 0 then regs
               else <[Z.to_nat (field_9_7 instruction) := (a + rel) mod 65536]> regs),
              memory)).
Proof.
  intros Hr Hf Hs Ha imm rel.
  pose proof (field_9_7_range instruction) as HD.
  rewrite (simulation_fetch_2R _ _ _ _ Hf) by lia.
  unfold instruction_2R. rewrite Hs.
  destruct (Z.eqb_spec (field_9_7 instruction) 0) as [Hz | Hz]; simpl; [reflexivity|].
  fold imm. rewrite Ha. simpl.
  rewrite (write_reg regs Hr) by lia. simpl.
  rewrite keep_16bits_mod, sign_number_converter_value by apply imm7_range.
  reflexivity.
Qed.

(** ADDI $1,$2,-5 (word 10491) on 3 gives 65534; ADDI $0,$2,-5 (word 10363)
    gives nothing. *)
Lemma addi_adds_signed_immediate_witness :
  let regs := [0; 0; 3; 0; 0; 0; 0; 0] in
  simulation 0 regs [10491] = Ok (Some (1, <[1%nat := 65534]> regs, [10491])) /\
  simulation 0 regs [10363] = Ok (Some (1, regs, [10363])).
Proof.
  intros regs. split.
  - apply (addi_adds_signed_immediate 10491 0 regs [10491] 3); reflexivity.
  - apply (addi_adds_signed_immediate 10363 0 regs [10363] 3); reflexivity.
Defined.

Lemma getitem_insert_eq (l : list Z) (i v : Z) :
  0 <= i < len l -> getitem (<[Z.to_nat i := v]> l) i = Ok v.
Proof.
  intros Hi. destruct (getitem_lookup (<[Z.to_nat i := v]> l) i) as (w & E & Hw).
  { now rewrite len_insert. }
  rewrite list_lookup_insert_eq in Hw by (unfold len in Hi; lia).
  now injection Hw as ->.
Qed.

Lemma getitem_insert_ne (l : list Z) (i j v : Z) :
  0 <= i -> 0 <= j < len l -> i <> j ->
  getitem (<[Z.to_nat i := v]> l) j = getitem l j.
Proof.
  intros Hi Hj Hne.
  destruct (getitem_lookup (<[Z.to_nat i := v]> l) j) as (w & E & Hw).
  { now rewrite len_insert. }
  destruct (getitem_lookup l j Hj) as (w' & E' & Hw').
  rewrite list_lookup_insert_ne in Hw by lia. congruence.
Qed.

Lemma jal_step (instruction pc : Z) (regs memory : list Z) :
  len regs = NUM_REGS ->
  getitem memory (pc mod 8192) = Ok instruction ->
  selector instruction = 3 ->
  simulation pc regs memory =
    Ok (Some (imm13 instruction, <[7%nat := (pc + 1) mod 65536]> regs, memory)).
Proof.
  intros Hr Hf Hs. rewrite (simulation_fetch _ _ _ _ Hf). unfold instruction_0R.
  rewrite Hs. simpl. rewrite valid_pc_imm13.
  rewrite (write_reg regs Hr) by lia. simpl. now rewrite keep_16bits_mod.
Qed.

(** X6: J and JAL jump to the 13-bit immediate, an address in 0..8191.  J
    changes nothing else; JAL writes (pc+1) mod 65536 to register 7.
    Neither touches memory. *)
Theorem j_jal_absolute_jump (instruction pc : Z) (regs memory : list Z) :
  len regs = NUM_REGS ->
  getitem memory (pc mod 8192) = Ok instruction ->
  0 <= imm13 instruction < 8192 /\
  (selector instruction = 2 ->
   simulation pc regs memory = Ok (Some (imm13 instruction, regs, memory))) /\
  (selector instruction = 3 ->
   simulation pc regs memory =
     Ok (Some (imm13 instruction, <[7%nat := (pc + 1) mod 65536]> regs, memory))).
Proof.
  intros Hr Hf. split; [apply imm13_range|].
  split; intros Hs; [|now apply jal_step].
  rewrite (simulation_fetch _ _ _ _ Hf). unfold instruction_0R.
  rewrite Hs. simpl. now rewrite valid_pc_imm13.
Qed.

(** J 5 (word 16389) and JAL 5 (word 24581) at pc 65535: the link address
    wraps to 0. *)
Lemma j_jal_absolute_jump_witness :
  let regs := [0; 1; 2; 3; 4; 5; 6; 7] in
  let memory := replicate (Z.to_nat 8191) 0 ++ [16389] in
  let memory' := replicate (Z.to_nat 8191) 0 ++ [24581] in
  simulation 65535 regs memory = Ok (Some (5, regs, memory)) /\
  simulation 65535 regs memory' = Ok (Some (5, <[7%nat := 0]> regs, memory')).
Proof.
  intros regs memory memory'.
  destruct (j_jal_absolute_jump 16389 65535 regs memory) as (_ & HJ & _);
    [reflexivity | vm_compute; reflexivity |].
  destruct (j_jal_absolute_jump 24581 65535 regs memory') as (_ & _ & HJAL);
    [reflexivity | vm_compute; reflexivity |].
  split; [apply HJ | apply HJAL]; reflexivity.
Defined.

(** X7: call and return.  A JAL at pc followed, at its target, by a JR on
    register 7 brings the pc to (pc+1) mod 65536; register 7 holds that
    address and nothing else has changed. *)
Theorem jal_then_jr_returns (jal jr pc : Z) (regs memory : list Z) :
  len regs = NUM_REGS ->
  getitem memory (pc mod 8192) = Ok jal -> selector jal = 3 ->
  getitem memory (imm13 jal mod 8192) = Ok jr ->
  selector jr = 0 -> opcode4 jr = 8 -> field_12_10 jr = 7 ->
  let regs' := <[7%nat := (pc + 1) mod 65536]> regs in
  simulation pc regs memory = Ok (Some (imm13 jal, regs', memory)) /\
  simulation (imm13 jal) regs' memory = Ok (Some ((pc + 1) mod 65536, regs', memory)).
Proof.
  intros Hr Hjal Hs Hjr Hs0 Hop Hsrc regs'.
  split; [now apply jal_step|].
  rewrite (simulation_fetch _ _ _ _ Hjr), Hs0. simpl (0 =? 0). cbv iota.
  unfold instruction_3R. rewrite Hop, Hsrc. simpl (8 =? 8). cbv iota.
  unfold regs'. change 7%nat with (Z.to_nat 7).
  rewrite getitem_insert_eq by (rewrite Hr; unfold NUM_REGS; lia).
  simpl. unfold valid_pc. now rewrite Z.mod_mod by lia.
Qed.

(** JAL 2 at pc 0 and JR $7 at address 2 (word 7176): back to pc 1. *)
Lemma jal_then_jr_returns_witness :
  let regs := [0; 0; 0; 0; 0; 0; 0; 0] in
  let memory := [24578; 0; 7176] in
  simulation 0 regs memory = Ok (Some (2, <[7%nat := 1]> regs, memory)) /\
  simulation 2 (<[7%nat := 1]> regs) memory = Ok (Some (1, <[7%nat := 1]> regs, memory)).
Proof.
  intros regs memory.
  apply (jal_then_jr_returns 24578 7176 0 regs memory); reflexivity.
Defined.

(** X8: store then load.  An SW followed by an LW with the same base
    register and immediate reads back the stored value: the LW's
    destination gets the value SW took from its regDst, reduced modulo
    65536. *)
Theorem sw_then_lw_reads_back (sw lw pc : Z) (regs memory : list Z) (a v : Z) :
  len regs = NUM_REGS -> len memory = MEM_SIZE ->
  getitem memory (pc mod 8192) = Ok sw -> selector sw = 5 ->
  getitem regs (field_12_10 sw) = Ok a ->
  getitem regs (field_9_7 sw) = Ok v ->
  let memory' := <[Z.to_nat (effective_address a (imm7 sw)) := v]> memory in
  let pc' := (pc + 1) mod 65536 in
  getitem memory' (pc' mod 8192) = Ok lw -> selector lw = 4 ->
  field_12_10 lw = field_12_10 sw -> imm7 lw = imm7 sw ->
  field_9_7 lw <> 0 ->
  simulation pc regs memory = Ok (Some (pc', regs, memory')) /\
  simulation pc' regs memory' =
    Ok (Some ((pc' + 1) mod 65536,
              <[Z.to_nat (field_9_7 lw) := v mod 65536]> regs, memory')).
Proof.
  intros Hr Hm Hsw Ssw Ha Hv memory' pc' Hlw Slw Esrc Eimm Hd.
  pose proof (effective_address_range a (imm7 sw)) as Haddr.
  pose proof (field_9_7_range lw) as HD.
  split.
  - rewrite (simulation_fetch_2R _ _ _ _ Hsw) by lia.
    unfold instruction_2R. rewrite (guard_2R_false _ 5 Ssw) by lia.
    rewrite Ssw. simpl. rewrite Ha. simpl. rewrite Hv. simpl.
    now rewrite (write_mem memory Hm) by lia.
  - rewrite (simulation_fetch_2R _ _ _ _ Hlw) by lia.
    unfold instruction_2R. rewrite Slw, (field_eqb_false _ 0 Hd). simpl.
    rewrite Esrc, Eimm, Ha. simpl.
    unfold memory'. rewrite getitem_insert_eq by (rewrite Hm; unfold MEM_SIZE; simpl; lia).
    simpl. rewrite (write_reg regs Hr) by lia. simpl.
    now rewrite keep_16bits_mod.
Qed.

(** SW $2,3($1) then LW $3,3($1) with base 65535: the cell is 2. *)
Lemma sw_then_lw_reads_back_witness :
  let regs := [0; 65535; 41; 0; 0; 0; 0; 0] in
  let memory := <[1%nat := 34179]> (<[0%nat := 42243]> initial_memory) in
  simulation 0 regs memory = Ok (Some (1, regs, <[2%nat := 41]> memory)) /\
  simulation 1 regs (<[2%nat := 41]> memory)
  = Ok (Some (2, <[3%nat := 41]> regs, <[2%nat := 41]> memory)).
Proof.
  intros regs memory.
  apply (sw_then_lw_reads_back 42243 34179 0 regs memory 65535 41);
    try reflexivity; vm_compute; lia.
Defined.

(** ** What a step leaves alone *)

Section Frames.

Variables (regs memory : list Z).
Hypothesis Hregs : len regs = NUM_REGS.
Hypothesis Hmem : len memory = MEM_SIZE.

Lemma frame_same pc : step_frame regs memory (ret pc regs memory).
Proof. exists pc, regs, memory. split; [reflexivity | left; auto]. Qed.

Lemma frame_write pc (d v : Z) :
  0 < d < 8 -> word v ->
  step_frame regs memory (ret pc (<[Z.to_nat d := v]> regs) memory).
Proof.
  intros Hd Hv. exists pc, (<[Z.to_nat d := v]> regs), memory.
  split; [reflexivity | right; left]. split; [reflexivity|]. eauto.
Qed.

Lemma frame_store pc (addr i v : Z) :
  0 <= addr < 8192 -> 0 <= i < 8 -> getitem regs i = Ok v ->
  step_frame regs memory (ret pc regs (<[Z.to_nat addr := v]> memory)).
Proof.
  intros Ha Hi Hv. exists pc, regs, (<[Z.to_nat addr := v]> memory).
  split; [reflexivity | right; right]. split; [reflexivity|]. eauto 8.
Qed.

Lemma word_bit (b : bool) : word (if b then 1 else 0).
Proof. unfold word. destruct b; lia. Qed.

Lemma instruction_3R_frame instruction pc :
  step_frame regs memory (instruction_3R instruction pc regs memory).
Proof.
  unfold instruction_3R.
  pose proof (field_12_10_range instruction) as HA.
  pose proof (field_9_7_range instruction) as HB.
  pose proof (field_6_4_range instruction) as HD.
  destruct (read_reg regs Hregs _ HA) as (a & Ea & _).
  destruct (read_reg regs Hregs _ HB) as (b & Eb & _).
  rewrite Ea. simpl.
  destruct (opcode4 instruction =? 8); [apply frame_same|].
  destruct (Z.eqb_spec (field_6_4 instruction) 0) as [|Hd]; [apply frame_same|].
  rewrite Eb. simpl.
  repeat match goal with
         | |- context [if ?c =? ?k then _ else _] => destruct (c =? k)
         end;
    try match goal with |- context [a <? b] => destruct (a <? b) end;
    rewrite ?(write_reg regs Hregs) by lia; simpl;
    try (apply frame_write; [lia | first [apply keep_16bits_range | unfold word; lia]]).
  apply frame_same.
Qed.

Lemma instruction_0R_frame instruction pc :
  step_frame regs memory (instruction_0R instruction pc regs memory).
Proof.
  unfold instruction_0R.
  destruct (selector instruction =? 2); [apply frame_same|].
  destruct (selector instruction =? 3); [|apply frame_same].
  rewrite (write_reg regs Hregs) by lia. simpl.
  apply (frame_write _ 7); [lia | apply keep_16bits_range].
Qed.

Lemma instruction_2R_frame instruction pc :
  selector instruction <> 0 -> selector instruction <> 2 ->
  selector instruction <> 3 ->
  step_frame regs memory (instruction_2R instruction pc regs memory).
Proof.
  intros H0 H2 H3. unfold instruction_2R.
  pose proof (selector_range instruction) as HS.
  pose proof (field_12_10_range instruction) as HA.
  pose proof (field_9_7_range instruction) as HD.
  destruct (read_reg regs Hregs _ HA) as (a & Ea & _).
  destruct (read_reg regs Hregs _ HD) as (d & Ed & _).
  destruct (read_mem memory Hmem _ (effective_address_range a (imm7 instruction)))
    as (w & Ew & _).
  destruct (Z.eqb_spec (field_9_7 instruction) 0) as [Hz|Hz];
    destruct (Z.eqb_spec (selector instruction) 7);
    destruct (Z.eqb_spec (selector instruction) 4);
    destruct (Z.eqb_spec (selector instruction) 1);
    destruct (Z.eqb_spec (selector instruction) 5);
    destruct (Z.eqb_spec (selector instruction) 6);
    try lia; simpl; try apply frame_same; rewrite Ea; simpl;
    rewrite ?Ed, ?Ew; simpl;
    rewrite ?(write_mem memory Hmem) by apply effective_address_range; simpl;
    try match goal with
        | |- context [a <? ?x] => destruct (a <? x)
        | |- context [a =? d] => destruct (a =? d)
        end;
    rewrite ?(write_reg regs Hregs) by lia; simpl;
    first [ apply frame_same
          | apply frame_write; [lia | first [apply keep_16bits_range | unfold word; lia]]
          | apply (frame_store _ _ (field_9_7 instruction));
            [apply effective_address_range | lia | exact Ed] ].
Qed.

Lemma simulation_frame_ok pc : step_frame regs memory (simulation pc regs memory).
Proof.
  unfold simulation.
  destruct (read_mem memory Hmem (pc mod 8192)) as (instruction & -> & _);
    [now apply Z.mod_pos_bound|]. simpl.
  destruct (Z.eqb_spec (selector instruction) 0); [apply instruction_3R_frame|].
  destruct (Z.eqb_spec (selector instruction) 2); [apply instruction_0R_frame|].
  destruct (Z.eqb_spec (selector instruction) 3); [apply instruction_0R_frame|].
  now apply instruction_2R_frame.
Qed.

End Frames.

(** X9: one step changes at most one thing.  On 8 registers and 8192 cells
    a step either changes nothing but the pc, or writes a 16-bit value to
    one of the registers 1..7 and leaves memory alone, or writes the value
    of a register to one memory cell in 0..8191 and leaves the registers
    alone. *)
Theorem step_changes_one_place (pc : Z) (regs memory : list Z) :
  len regs = NUM_REGS -> len memory = MEM_SIZE ->
  exists pc' regs' memory',
    simulation pc regs memory = Ok (Some (pc', regs', memory')) /\
    ((regs' = regs /\ memory' = memory) \/
     (memory' = memory /\
      exists d v, 0 < d < 8 /\ 0 <= v < 65536 /\ regs' = <[Z.to_nat d := v]> regs) \/
     (regs' = regs /\
      exists addr i v, 0 <= addr < 8192 /\ 0 <= i < 8 /\
        getitem regs i = Ok v /\ memory' = <[Z.to_nat addr := v]> memory)).
Proof. intros Hr Hm. exact (simulation_frame_ok regs memory Hr Hm pc). Qed.

Lemma step_changes_one_place_witness :
  let regs := [0; 65535; 41; 0; 0; 0; 0; 0] in
  let memory := <[0%nat := 42243]> initial_memory in
  exists pc' regs' memory',
    simulation 0 regs memory = Ok (Some (pc', regs', memory')) /\
    ((regs' = regs /\ memory' = memory) \/
     (memory' = memory /\
      exists d v, 0 < d < 8 /\ 0 <= v < 65536 /\ regs' = <[Z.to_nat d := v]> regs) \/
     (regs' = regs /\
      exists addr i v, 0 <= addr < 8192 /\ 0 <= i < 8 /\
        getitem regs i = Ok v /\ memory' = <[Z.to_nat addr := v]> memory)).
Proof.
  intros regs memory.
  apply (step_changes_one_place 0 regs memory); vm_compute; reflexivity.
Defined.

(** X15: the two readings of a 7-bit field lose nothing.  The signed value
    lies in -64..63 and the 16-bit pattern in 0..65535, and the field comes
    back from either: as the residue modulo 128 of the signed value and as
    the low 7 bits of the pattern. *)
Theorem immediate_round_trip (x : Z) :
  0 <= x < 128 ->
  -64 <= sign_number_converter x 7 < 64 /\
  sign_number_converter x 7 mod 128 = x /\
  0 <= sign_extend_7 x < 65536 /\
  Z.land (sign_extend_7 x) 127 = x.
Proof.
  intros Hx.
  rewrite sign_extend_7_value, sign_number_converter_value by assumption.
  change 127 with (Z.ones 7). rewrite Z.land_ones by lia. change (2 ^ 7) with 128.
  destruct (Z.leb_spec 64 x).
  - repeat split; try lia.
    + replace (x - 128) with (x + (-1) * 128) by lia.
      rewrite Z.mod_add by lia. apply Z.mod_small. lia.
    + replace (x + 65408) with (x + 511 * 128) by lia.
      rewrite Z.mod_add by lia. apply Z.mod_small. lia.
  - repeat split; try lia; apply Z.mod_small; lia.
Qed.

Lemma immediate_round_trip_witness :
  -64 <= sign_number_converter 100 7 < 64 /\
  sign_number_converter 100 7 mod 128 = 100 /\
  0 <= sign_extend_7 100 < 65536 /\
  Z.land (sign_extend_7 100) 127 = 100.
Proof. apply (immediate_round_trip 100). lia. Defined.

(** ** The whole run *)

Lemma loop_body_words m :
  wf_machine m -> 0 <= m_pc m < 65536 ->
  words (m_regs m) -> words (m_memory m) ->
  exists o, loop_body m = Ok o /\
    wf_machine (outcome_machine o) /\
    0 <= m_pc (outcome_machine o) < 65536 /\
    words (m_regs (outcome_machine o)) /\ words (m_memory (outcome_machine o)).
Proof.
  intros (Hr & Hm & Hz) Hpc Wr Wm. unfold loop_body.
  destruct (simulation_ok _ _ Hr Hm (m_pc m))
    as (pc' & regs' & memory' & -> & Hpc' & Lr & Lm & Z0 & Wr' & Wm'). simpl.
  assert (Hinv : wf_machine (Machine pc' regs' memory') /\
                 0 <= pc' < 65536 /\ words regs' /\ words memory').
  { repeat split; simpl; auto; try lia; congruence. }
  destruct (pc' =? m_pc m); [|eexists; split; [reflexivity | exact Hinv]].
  destruct (getitem_lookup memory' (m_pc m mod 8191)) as (w & -> & _).
  { rewrite Lm, Hm. pose proof (Z.mod_pos_bound (m_pc m) 8191).
    unfold MEM_SIZE. simpl. lia. }
  simpl. destruct (Z.shiftr w 13 =? 2); eexists; (split; [reflexivity | exact Hinv]).
Qed.

Lemma run_loop_words fuel : forall m,
  wf_machine m -> 0 <= m_pc m < 65536 ->
  words (m_regs m) -> words (m_memory m) ->
  exists o, run_loop fuel m = Ok o /\
    wf_machine (outcome_machine o) /\
    0 <= m_pc (outcome_machine o) < 65536 /\
    words (m_regs (outcome_machine o)) /\ words (m_memory (outcome_machine o)).
Proof.
  induction fuel as [|fuel IH]; intros m Hwf Hpc Wr Wm; simpl.
  - eexists. split; [reflexivity | auto].
  - destruct (loop_body_words m Hwf Hpc Wr Wm) as ([m' | m'] & -> & Hinv); simpl.
    + eexists. split; [reflexivity | exact Hinv].
    + destruct Hinv as (? & ? & ? & ?). now apply IH.
Qed.

(** X10: a 16-bit machine stays a 16-bit machine.  Started on a memory of
    8192 cells that all hold 16-bit values, the run loop never raises, and
    after any number of rounds the pc is in 0..65535 and the 8 registers and
    the 8192 cells still hold 16-bit values. *)
Theorem run_keeps_16_bit_state (mem : list Z) (fuel : nat) :
  len mem = MEM_SIZE -> wordsb mem = true ->
  exists o, run_loop fuel (boot mem) = Ok o /\
    0 <= m_pc (outcome_machine o) < 65536 /\
    len (m_regs (outcome_machine o)) = NUM_REGS /\
    wordsb (m_regs (outcome_machine o)) = true /\
    len (m_memory (outcome_machine o)) = MEM_SIZE /\
    wordsb (m_memory (outcome_machine o)) = true.
Proof.
  intros Hm Wm.
  destruct (run_loop_words fuel (boot mem)) as (o & E & (Hr & Hm' & _) & Hpc & Wr & Wm').
  - now apply wf_boot.
  - simpl. lia.
  - apply wordsb_words. reflexivity.
  - now apply wordsb_words.
  - exists o. repeat split; auto; try lia; now apply words_wordsb.
Qed.

(** ADDI $1,$0,-1 ; ADD $1,$1,$1 ; JR $1 : arithmetic at the upper end and a
    jump far beyond the memory size. *)
Lemma run_keeps_16_bit_state_witness :
  let mem := <[2%nat := 1032]> (<[1%nat := 1168]> (<[0%nat := 8447]> initial_memory)) in
  exists o, run_loop 5 (boot mem) = Ok o /\
    0 <= m_pc (outcome_machine o) < 65536 /\
    len (m_regs (outcome_machine o)) = NUM_REGS /\
    wordsb (m_regs (outcome_machine o)) = true /\
    len (m_memory (outcome_machine o)) = MEM_SIZE /\
    wordsb (m_memory (outcome_machine o)) = true.
Proof.
  intros mem. apply (run_keeps_16_bit_state mem 5); vm_compute; reflexivity.
Defined.

(** X12: the halt convention below the last cell.  With the pc below 8191
    and 16-bit memory, a round of the loop breaks exactly when the fetched
    word is a J whose immediate is the pc itself, and the machine it leaves
    is the machine it found; on any other word the loop goes on. *)
Theorem halt_exactly_on_self_jump (m : machine) (instruction : Z) :
  len (m_regs m) = NUM_REGS -> len (m_memory m) = MEM_SIZE ->
  m_regs m !! 0%nat = Some 0 ->
  wordsb (m_memory m) = true -> 0 <= m_pc m < 8191 ->
  getitem (m_memory m) (m_pc m mod 8192) = Ok instruction ->
  (selector instruction = 2 /\ imm13 instruction = m_pc m ->
   loop_body m = Ok (Break m)) /\
  (~ (selector instruction = 2 /\ imm13 instruction = m_pc m) ->
   exists m', loop_body m = Ok (Continue m')).
Proof.
  intros Hr Hm Hz Wm Hpc Hf. apply wordsb_words in Wm.
  assert (Hwf : wf_machine m) by (repeat split; assumption).
  destruct (simulation_ok _ _ Hr Hm (m_pc m))
    as (pc' & regs' & memory' & Es & _).
  pose proof (loop_body_halt_test m instruction pc' regs' memory' Hwf Wm Hpc Hf Es) as Hb.
  split.
  - intros (Hs & Hi). rewrite Hb.
    rewrite (simulation_fetch _ _ _ _ Hf) in Es. unfold instruction_0R in Es.
    rewrite Hs in Es. simpl in Es. rewrite valid_pc_imm13, Hi in Es.
    injection Es as <- <- <-. rewrite Hs, Z.eqb_refl. simpl.
    now destruct m.
  - intros Hn. rewrite Hb.
    destruct (Z.eqb_spec pc' (m_pc m)) as [Epc | Epc]; simpl; [|eauto].
    destruct (Z.eqb_spec (selector instruction) 2) as [Hs | Hs]; [|eauto].
    exfalso. apply Hn. split; [exact Hs|].
    rewrite (simulation_fetch _ _ _ _ Hf) in Es. unfold instruction_0R in Es.
    rewrite Hs in Es. simpl in Es. rewrite valid_pc_imm13 in Es.
    injection Es as E1 _ _. congruence.
Qed.

(** J 1 in cell 1: at pc 1 the loop breaks, at pc 0 (J 1 seen from
    elsewhere) it goes on. *)
Lemma halt_exactly_on_self_jump_witness :
  let mem := <[1%nat := 16385]> (<[0%nat := 16385]> initial_memory) in
  loop_body (Machine 1 initial_regs mem) = Ok (Break (Machine 1 initial_regs mem)) /\
  exists m', loop_body (Machine 0 initial_regs mem) = Ok (Continue m').
Proof.
  intros mem. split.
  - destruct (halt_exactly_on_self_jump (Machine 1 initial_regs mem) 16385) as [H _];
      [reflexivity | reflexivity | reflexivity | vm_compute; reflexivity
      | simpl; lia | reflexivity |].
    apply H. split; reflexivity.
  - destruct (halt_exactly_on_self_jump (Machine 0 initial_regs mem) 16385) as [_ H];
      [reflexivity | reflexivity | reflexivity | vm_compute; reflexivity
      | simpl; lia | reflexivity |].
    apply H. intros [_ E]. vm_compute in E. discriminate E.
Defined.

(** ** More on the loader *)

Lemma load_len (lines : list (list Z)) (mem : list Z) :
  len (fst (load_machine_code lines mem)) = len mem.
Proof.
  unfold load_machine_code.
  destruct (load_lines_spec lines 0 mem) as (ws & Hmem & _ & Hfit & _).
  change (Z.of_nat 0) with 0 in Hmem. rewrite Hmem. simpl.
  unfold len. rewrite length_app, length_drop.
  destruct Hfit as [-> | Hfit]; simpl in *; lia.
Qed.

(** X13: the loader never resizes the memory, and whether it fails or not
    the cells from the number of lines onwards keep the value they had. *)
Theorem load_keeps_size_and_tail (lines : list (list Z)) (mem : list Z) (j : nat) :
  (length lines <= j)%nat ->
  len (fst (load_machine_code lines mem)) = len mem /\
  fst (load_machine_code lines mem) !! j = mem !! j.
Proof.
  intros Hj. split; [apply load_len|].
  unfold load_machine_code.
  destruct (load_lines_spec lines 0 mem) as (ws & Hmem & Hlen & _).
  change (Z.of_nat 0) with 0 in Hmem. rewrite Hmem. simpl.
  rewrite lookup_app_r by lia. rewrite lookup_drop. f_equal. lia.
Qed.

(** Two good lines and a bad one in a memory of four cells. *)
Lemma load_keeps_size_and_tail_witness :
  let lines := [ram_line 0 "101"; ram_line 1 "11"; text "ram[2]"] in
  len (fst (load_machine_code lines [7; 8; 9; 10])) = len [7; 8; 9; 10] /\
  fst (load_machine_code lines [7; 8; 9; 10]) !! 3%nat = [7; 8; 9; 10] !! 3%nat.
Proof.
  intros lines. apply (load_keeps_size_and_tail lines [7; 8; 9; 10] 3). simpl. lia.
Defined.

Lemma load_lines_error (lines : list (list Z)) : forall (n : nat) (mem : list Z) (e : exn),
  snd (load_lines lines (Z.of_nat n) mem) = Raise e ->
  exists (i : nat) line,
    lines !! i = Some line /\
    raised_by (len mem) (Z.of_nat (n + i)) line e /\
    forall (j : nat) l, (j < i)%nat -> lines !! j = Some l ->
      ~ rejected (len mem) (Z.of_nat (n + j)) l.
Proof.
  induction lines as [|line rest IH]; intros n mem e; [discriminate|].
  assert (Hfirst : raised_by (len mem) (Z.of_nat n) line e ->
                   exists (i : nat) l0,
                     (line :: rest) !! i = Some l0 /\
                     raised_by (len mem) (Z.of_nat (n + i)) l0 e /\
                     forall (j : nat) l, (j < i)%nat -> (line :: rest) !! j = Some l ->
                       ~ rejected (len mem) (Z.of_nat (n + j)) l).
  { intros H. exists 0%nat, line. rewrite Nat.add_0_r.
    split; [reflexivity|]. split; [exact H|]. intros j l Hj. lia. }
  simpl.
  destruct (machine_code_re line) as [[addr_s instr_s]|] eqn:Hre.
  2: { intros [= <-]. apply Hfirst. exact Hre. }
  destruct (machine_code_re_address _ _ _ Hre)
    as [(Hlong & Haddr) | (Hshort & addr & Haddr)]; rewrite Haddr.
  { intros [= <-]. apply Hfirst. simpl. eauto. }
  destruct (int instr_s 2) as [instr | e'] eqn:Hinstr.
  2: { intros [= <-]. apply Hfirst.
       pose proof (int_2_raises _ _ Hinstr) as He'. subst e'.
       simpl. eauto 6. }
  destruct (Z.eqb_spec addr (Z.of_nat n)) as [Heq | Hne]; simpl.
  2: { intros [= <-]. apply Hfirst. simpl. eauto 8. }
  destruct (Z.leb_spec (len mem) addr) as [Hcap | Hcap].
  { intros [= <-]. apply Hfirst. simpl. subst addr. eauto 8. }
  rewrite setitem_insert by lia. subst addr. rewrite Nat2Z.id.
  replace (Z.of_nat n + 1) with (Z.of_nat (S n)) by lia.
  intros He. destruct (IH (S n) _ e He) as (i & l0 & Hl0 & Hby & Hbefore).
  rewrite len_insert in Hby.
  exists (S i), l0. split; [exact Hl0|]. split.
  - now replace (n + S i)%nat with (S n + i)%nat by lia.
  - intros [|j] l Hj Hl.
    + injection Hl as <-. rewrite Nat.add_0_r.
      exact (accepted_not_rejected _ _ _ _ _ _ Hre Haddr Hinstr Hcap).
    + replace (n + S j)%nat with (S n + j)%nat by lia.
      specialize (Hbefore j l). rewrite len_insert in Hbefore.
      apply Hbefore; [lia | exact Hl].
Qed.

(** X14: which error the loader raises.  The error belongs to the first
    line that is rejected, and its kind follows the order of the tests: a
    line that does not match the pattern raises the parse error; a matching
    line whose address has more than 4300 digits raises the digit-limit
    error of [int(addr, 10)], whatever its data; a matching line with a
    shorter address and a non-binary data digit raises the literal error,
    whatever the address; a line with binary data and an address other than
    its line number raises the sequence error; only a line in sequence can
    raise the capacity error.  The loader raises nothing else. *)
Theorem load_error_kind (lines : list (list Z)) (mem : list Z) (e : exn) :
  snd (load_machine_code lines mem) = Raise e ->
  exists (i : nat) line,
    lines !! i = Some line /\
    (forall (j : nat) l, (j < i)%nat -> lines !! j = Some l ->
       ~ rejected (len mem) (Z.of_nat j) l) /\
    match e with
    | ValueError_parse => machine_code_re line = None
    | ValueError_digits =>
        exists addr_s instr_s, machine_code_re line = Some (addr_s, instr_s) /\
          int_max_str_digits < len addr_s
    | ValueError_literal =>
        exists addr_s instr_s addr,
          machine_code_re line = Some (addr_s, instr_s) /\
          int addr_s 10 = Ok addr /\ len addr_s <= int_max_str_digits /\
          int instr_s 2 = Raise ValueError_literal
    | ValueError_sequence =>
        exists addr_s instr_s addr w,
          machine_code_re line = Some (addr_s, instr_s) /\
          int instr_s 2 = Ok w /\ int addr_s 10 = Ok addr /\ addr <> Z.of_nat i
    | ValueError_capacity =>
        exists addr_s instr_s w,
          machine_code_re line = Some (addr_s, instr_s) /\
          int instr_s 2 = Ok w /\ int addr_s 10 = Ok (Z.of_nat i) /\
          len mem <= Z.of_nat i
    | IndexError | TypeError | SystemExit | OSError | UnicodeDecodeError => False
    end.
Proof.
  intros He. unfold load_machine_code in He.
  destruct (load_lines_error lines 0 mem e He) as (i & line & Hl & Hby & Hbefore).
  exists i, line. split; [exact Hl|]. split; [exact Hbefore|].
  destruct e; try exact Hby.
  destruct Hby as (a & d & addr & Hre & Ha & Hd). exists a, d, addr.
  repeat split; try assumption.
  destruct (Z.leb_spec (len a) int_max_str_digits) as [H | H]; [exact H|].
  rewrite (int_10_long _ H) in Ha. discriminate Ha.
Qed.

(** A line that is out of sequence and has a non-binary digit as well: the
    literal error comes first. *)
Lemma load_error_kind_witness :
  let lines := [ram_line 0 "1"; ram_line 5 "2"] in
  exists (i : nat) line,
    lines !! i = Some line /\
    (forall (j : nat) l, (j < i)%nat -> lines !! j = Some l ->
       ~ rejected (len [0; 0; 0; 0]) (Z.of_nat j) l) /\
    exists addr_s instr_s addr,
      machine_code_re line = Some (addr_s, instr_s) /\
      int addr_s 10 = Ok addr /\ len addr_s <= int_max_str_digits /\
      int instr_s 2 = Raise ValueError_literal.
Proof.
  intros lines.
  apply (load_error_kind lines [0; 0; 0; 0] ValueError_literal).
  vm_compute. reflexivity.
Defined.

(** ** The pattern of a line *)

Section Pattern.

Lemma strip_prefix_inv (p : list Z) : forall s r,
  strip_prefix p s = Some r -> s = p ++ r.
Proof.
  induction p as [|a p IH]; intros s r; simpl.
  - now intros [= ->].
  - destruct s as [|b s]; [discriminate|].
    destruct (Z.eqb_spec a b) as [-> | _]; [|discriminate].
    intros H. now rewrite (IH _ _ H).
Qed.

Lemma strip_prefix_app (p r : list Z) : strip_prefix p (p ++ r) = Some r.
Proof. induction p as [|a p IH]; simpl; [reflexivity | now rewrite Z.eqb_refl]. Qed.

Lemma span_digits_inv (s : list Z) : forall a r,
  span_digits s = (a, r) -> s = a ++ r /\ all_digits a = true.
Proof.
  induction s as [|c s IH]; intros a r; simpl.
  - intros [= <- <-]. auto.
  - destruct (is_digit c) eqn:Hc.
    + destruct (span_digits s) as [d r'] eqn:E. intros [= <- <-].
      destruct (IH d r' eq_refl) as (-> & Hd). simpl. rewrite Hc. auto.
    + intros [= <- <-]. auto.
Qed.

(** A run of digits followed by something that is not a digit is read as
    a whole. *)
Lemma span_digits_app (a : list Z) (c : Z) (s : list Z) :
  all_digits a = true -> is_digit c = false ->
  span_digits (a ++ c :: s) = (a, c :: s).
Proof.
  intros Ha Hc. induction a as [|x a IH]; simpl.
  - now rewrite Hc.
  - simpl in Ha. apply andb_true_iff in Ha as [Hx Ha].
    now rewrite Hx, (IH Ha).
Qed.

Lemma machine_code_re_elim (line addr_s instr_s : list Z) :
  machine_code_re line = Some (addr_s, instr_s) ->
  exists rest,
    line = ram_text addr_s instr_s rest /\
    all_digits addr_s = true /\ addr_s <> [] /\
    all_digits instr_s = true /\ instr_s <> [] /\
    dot_star_end rest = true.
Proof.
  unfold machine_code_re.
  destruct (strip_prefix (text "ram[") line) as [s1|] eqn:E1; [|discriminate].
  destruct (span_digits s1) as [a s2] eqn:E2.
  destruct a as [|ca a]; [discriminate|].
  destruct (strip_prefix (text "] = 16'b") s2) as [s3|] eqn:E3; [|discriminate].
  destruct (span_digits s3) as [d s4] eqn:E4.
  destruct d as [|cd d]; [discriminate|].
  destruct (strip_prefix (text ";") s4) as [s5|] eqn:E5; [|discriminate].
  destruct (dot_star_end s5) eqn:E6; [|discriminate].
  intros [= <- <-]. exists s5.
  apply strip_prefix_inv in E1, E3, E5.
  apply span_digits_inv in E2 as (E2 & Ha). apply span_digits_inv in E4 as (E4 & Hd).
  subst. repeat split; auto; discriminate.
Qed.

Lemma machine_code_re_intro (addr_s instr_s rest : list Z) :
  all_digits addr_s = true -> addr_s <> [] ->
  all_digits instr_s = true -> instr_s <> [] ->
  dot_star_end rest = true ->
  machine_code_re (ram_text addr_s instr_s rest) = Some (addr_s, instr_s).
Proof.
  intros Ha Na Hd Nd Hrest.
  unfold machine_code_re, ram_text.
  rewrite strip_prefix_app.
  change (text "] = 16'b" ++ ?x) with (93 :: (text " = 16'b" ++ x)).
  rewrite (span_digits_app addr_s 93 _ Ha eq_refl).
  destruct addr_s as [|ca a]; [contradiction|].
  change (93 :: (text " = 16'b" ++ ?x)) with (text "] = 16'b" ++ x).
  rewrite strip_prefix_app.
  change (text ";" ++ rest) with (59 :: rest).
  rewrite (span_digits_app instr_s 59 _ Hd eq_refl).
  destruct instr_s as [|cd d]; [contradiction|].
  change (59 :: rest) with (text ";" ++ rest).
  rewrite strip_prefix_app. now rewrite Hrest.
Qed.

End Pattern.

(** A matching line whose address is longer than [int] converts stops the
    load with the digit-limit error, whatever the digits are: 4301 zeros
    do. *)
Lemma load_address_too_long (addr_s instr_s rest : list Z) (mem : list Z) :
  all_digits addr_s = true -> int_max_str_digits < len addr_s ->
  all_digits instr_s = true -> instr_s <> [] ->
  dot_star_end rest = true ->
  load_machine_code [ram_text addr_s instr_s rest] mem = (mem, Raise ValueError_digits).
Proof.
  intros Ha Hlong Hd Nd Hrest. unfold load_machine_code. simpl.
  rewrite machine_code_re_intro; try assumption.
  - now rewrite (int_10_long _ Hlong).
  - intros ->. unfold len, int_max_str_digits in Hlong. simpl in Hlong. lia.
Qed.

(** X19: what the pattern accepts.  [machine_code_re] matches a line, with
    groups [addr_s] and [instr_s], exactly when the line is
    [ram[addr_s] = 16'binstr_s;rest] where both groups are non-empty runs
    of decimal digits, of any script, and [rest] holds no newline other
    than a final one.  So a comment after the semicolon is accepted, and
    the data digits are neither counted nor required to be binary. *)
Theorem machine_code_re_matches (line addr_s instr_s : list Z) :
  machine_code_re line = Some (addr_s, instr_s) <->
  exists rest,
    line = ram_text addr_s instr_s rest /\
    all_digits addr_s = true /\ addr_s <> [] /\
    all_digits instr_s = true /\ instr_s <> [] /\
    dot_star_end rest = true.
Proof.
  split; [apply machine_code_re_elim|].
  intros (rest & -> & Ha & Na & Hd & Nd & Hrest).
  now apply machine_code_re_intro.
Qed.

(** A line as the assembler writes it, comment and newline included, and
    the same line with the address in Arabic-Indic digits. *)
Lemma machine_code_re_matches_witness :
  machine_code_re
    (ram_text (text "12") (text "0010000010000101")
              (text "  // addi $1,$0,5" ++ [newline]))
  = Some (text "12", text "0010000010000101") /\
  machine_code_re
    (ram_text [1633; 1634] (text "0010000010000101")
              (text "  // addi $1,$0,5" ++ [newline]))
  = Some ([1633; 1634], text "0010000010000101").
Proof.
  split; apply machine_code_re_matches;
    exists (text "  // addi $1,$0,5" ++ [newline]);
    repeat split; try reflexivity; discriminate.
Defined.

(** ** Words from the file *)

Section LoadedWords.

(** The value of [k] more binary digits after [acc]. *)
Lemma int_acc_binary_bound (s : list Z) : forall acc v,
  0 <= acc -> int_acc 2 acc s = Some v ->
  acc * 2 ^ Z.of_nat (length s) <= v < (acc + 1) * 2 ^ Z.of_nat (length s).
Proof.
  induction s as [|c s IH]; intros acc v Hacc; simpl int_acc.
  - intros [= <-]. simpl. lia.
  - destruct (decimal_value c) as [d|] eqn:Hc; [|discriminate].
    apply decimal_value_range in Hc.
    destruct (Z.ltb_spec d 2) as [Hd | Hd]; [|discriminate].
    intros Hv. apply IH in Hv; [|lia].
    change (length (c :: s)) with (S (length s)).
    rewrite Nat2Z.inj_succ, Z.pow_succ_r by lia.
    assert (0 < 2 ^ Z.of_nat (length s)) by (apply Z.pow_pos_nonneg; lia).
    nia.
Qed.

Lemma int_binary_word (s : list Z) (v : Z) :
  (length s <= 16)%nat -> int s 2 = Ok v -> word v.
Proof.
  intros Hlen. unfold int. destruct s as [|c s]; [discriminate|].
  change (negb (power_of_two 2)) with false. cbn [andb].
  destruct (int_acc 2 0 (c :: s)) as [w|] eqn:E; [|discriminate].
  intros [= <-]. apply int_acc_binary_bound in E; [|lia].
  assert (2 ^ Z.of_nat (length (c :: s)) <= 2 ^ 16)
    by (apply Z.pow_le_mono_r; lia).
  unfold word. change (2 ^ 16) with 65536 in *. lia.
Qed.

Lemma load_words (lines : list (list Z)) (mem : list Z) :
  words mem -> data_fits_16 lines = true ->
  words (fst (load_machine_code lines mem)).
Proof.
  intros Wm Hfit.
  destruct (load_machine_code_spec lines mem) as (_ & ws & -> & Hlen & Hacc & _).
  apply Forall_app. split; [|now apply Forall_drop].
  apply Forall_lookup. intros i w Hw.
  assert (Hi : (i < length ws)%nat) by (now apply lookup_lt_Some in Hw).
  destruct (lookup_lt_is_Some_2 lines i) as (line & Hl); [lia|].
  destruct (Hacc i line Hl Hi) as (_ & a & d & w' & Hre & Hd & Hw').
  assert (w' = w) by congruence. subst w'.
  unfold data_fits_16 in Hfit. rewrite forallb_forall in Hfit.
  specialize (Hfit line). rewrite Hre in Hfit.
  apply (int_binary_word d); [|exact Hd].
  apply Nat.leb_le, Hfit. apply list_elem_of_In. now apply list_elem_of_lookup_2 in Hl.
Qed.

End LoadedWords.

(** X20: words from the file.  When no data field of the file has more
    than 16 digits, every cell the loader writes gets a value in 0..65535:
    a memory of 16-bit values stays one, whether the load succeeds or stops
    at a bad line. *)
Theorem load_gives_16_bit_memory (lines : list (list Z)) (mem : list Z) :
  wordsb mem = true -> data_fits_16 lines = true ->
  wordsb (fst (load_machine_code lines mem)) = true.
Proof.
  intros Wm Hfit. apply words_wordsb, load_words; [now apply wordsb_words | exact Hfit].
Qed.

Lemma load_gives_16_bit_memory_witness :
  wordsb (fst (load_machine_code
                 [ram_line 0 "1111111111111111"; ram_line 1 "0000000000000101";
                  text "ram[2] = 16'b;"]
                 [0; 0; 0; 7])) = true.
Proof.
  apply load_gives_16_bit_memory; reflexivity.
Defined.

(** X21: from a file to a 16-bit run.  If the file loads and none of its
    data fields has more than 16 digits, the program raises nothing, and
    after any number of rounds of the run loop the pc is in 0..65535 and
    the 8 registers and 8192 cells hold 16-bit values. *)
Theorem main_runs_on_16_bit_state (file : list (list Z)) (fuel : nat) :
  snd (load_machine_code file initial_memory) = Ok tt ->
  data_fits_16 file = true ->
  exists o, main file fuel = Ok o /\
    0 <= m_pc (outcome_machine o) < 65536 /\
    len (m_regs (outcome_machine o)) = NUM_REGS /\
    wordsb (m_regs (outcome_machine o)) = true /\
    len (m_memory (outcome_machine o)) = MEM_SIZE /\
    wordsb (m_memory (outcome_machine o)) = true.
Proof.
  intros Hload Hfit. unfold main.
  pose proof (load_len file initial_memory) as Hlen.
  assert (Wm : words (fst (load_machine_code file initial_memory))).
  { apply load_words; [|exact Hfit]. apply wordsb_words. vm_compute. reflexivity. }
  destruct (load_machine_code file initial_memory) as [mem r]. simpl in *. subst r.
  assert (Hm : len mem = MEM_SIZE) by (rewrite Hlen; reflexivity).
  destruct (run_loop_words fuel (boot mem)) as (o & E & (Hr & Hm' & _) & Hpc & Wr & Wm').
  - now apply wf_boot.
  - simpl. lia.
  - apply wordsb_words. reflexivity.
  - exact Wm.
  - exists o. repeat split; auto; try lia; now apply words_wordsb.
Qed.

Lemma main_runs_on_16_bit_state_witness :
  let file := [ram_line 0 "0010000011111111"; ram_line 1 "0000010010010000";
               ram_line 2 "0000010000001000"] in
  exists o, main file 6 = Ok o /\
    0 <= m_pc (outcome_machine o) < 65536 /\
    len (m_regs (outcome_machine o)) = NUM_REGS /\
    wordsb (m_regs (outcome_machine o)) = true /\
    len (m_memory (outcome_machine o)) = MEM_SIZE /\
    wordsb (m_memory (outcome_machine o)) = true.
Proof.
  intros file. apply (main_runs_on_16_bit_state file 6); vm_compute; reflexivity.
Defined.
(** ** The printed state *)

Section Numerals.

Lemma append_length (a b : string) :
  String.length (String.append a b) = (String.length a + String.length b)%nat.
Proof. induction a as [|c a IH]; simpl; [reflexivity | now rewrite IH]. Qed.

Lemma pad_length c k s : String.length (pad c k s) = (k + String.length s)%nat.
Proof. induction k as [|k IH]; simpl; [reflexivity | now rewrite IH]. Qed.

Lemma rjust_length c width s :
  (String.length s <= width)%nat -> String.length (rjust c width s) = width.
Proof. intros H. unfold rjust. rewrite pad_length. lia. Qed.

(** A number below [base ^ k] has at most [k] digits, and any number has
    one at least. *)
Lemma digits_length (base : Z) (fuel : nat) : forall (k : nat) (n : Z) (acc : string),
  1 < base -> 0 <= n < base ^ Z.of_nat (S k) ->
  (String.length acc + 1 <= String.length (digits base (S fuel) n acc)
   <= String.length acc + S k)%nat.
Proof.
  induction fuel as [|fuel IH]; intros k n acc Hb Hn.
  - simpl. destruct (n / base =? 0); simpl; lia.
  - change (digits base (S (S fuel)) n acc)
      with (if n / base =? 0 then String (digit_char (n mod base)) acc
            else digits base (S fuel) (n / base) (String (digit_char (n mod base)) acc)).
    destruct (Z.eqb_spec (n / base) 0) as [E | E]; [simpl; lia|].
    destruct k as [|k].
    + exfalso. apply E. apply Z.div_small. simpl in Hn. lia.
    + assert (Hq : 0 <= n / base < base ^ Z.of_nat (S k)).
      { split; [apply Z.div_pos; lia|].
        apply Z.div_lt_upper_bound; [lia|].
        rewrite <- Z.pow_succ_r by lia. now rewrite <- Nat2Z.inj_succ. }
      specialize (IH k (n / base) (String (digit_char (n mod base)) acc) Hb Hq).
      change (String.length (String (digit_char (n mod base)) acc))
        with (S (String.length acc)) in IH. lia.
Qed.

Lemma numeral_length (base n : Z) (k : nat) :
  1 < base -> 0 <= n < base ^ Z.of_nat (S k) ->
  (1 <= String.length (numeral base n) <= S k)%nat.
Proof.
  intros Hb Hn. unfold numeral.
  pose proof (digits_length base (Z.to_nat (Z.log2 n)) k n EmptyString Hb Hn) as H.
  change (String.length EmptyString) with 0%nat in H. lia.
Qed.

Lemma digits_grow (base : Z) (fuel : nat) : forall (n : Z) (acc : string),
  (String.length acc <= String.length (digits base fuel n acc))%nat.
Proof.
  induction fuel as [|fuel IH]; intros n acc; simpl; [lia|].
  destruct (n / base =? 0); [simpl; lia|].
  specialize (IH (n / base) (String (digit_char (n mod base)) acc)).
  simpl in IH. lia.
Qed.

(** A number from [base ^ k] on has more than [k] digits, given the rounds
    to write them. *)
Lemma digits_length_lower (base : Z) (fuel : nat) : forall (k : nat) (n : Z) (acc : string),
  1 < base -> base ^ Z.of_nat k <= n -> (k <= fuel)%nat ->
  (String.length acc + S k <= String.length (digits base (S fuel) n acc))%nat.
Proof.
  induction fuel as [|fuel IH]; intros k n acc Hb Hn Hk.
  - assert (k = 0%nat) by lia. subst k.
    simpl. destruct (n / base =? 0); simpl; lia.
  - change (digits base (S (S fuel)) n acc)
      with (if n / base =? 0 then String (digit_char (n mod base)) acc
            else digits base (S fuel) (n / base) (String (digit_char (n mod base)) acc)).
    destruct k as [|k].
    { destruct (n / base =? 0); [simpl; lia|].
      pose proof (digits_grow base (S fuel) (n / base)
                              (String (digit_char (n mod base)) acc)) as H.
      cbn [String.length] in H. lia. }
    assert (Hq : base ^ Z.of_nat k <= n / base).
    { apply Z.div_le_lower_bound; [lia|].
      rewrite Nat2Z.inj_succ, Z.pow_succ_r in Hn by lia. exact Hn. }
    assert (Hpos : 0 < base ^ Z.of_nat k) by (apply Z.pow_pos_nonneg; lia).
    destruct (Z.eqb_spec (n / base) 0) as [E | E]; [lia|].
    specialize (IH k (n / base) (String (digit_char (n mod base)) acc) Hb Hq).
    cbn [String.length] in IH. lia.
Qed.

Lemma numeral_length_lower (base n : Z) (k : nat) :
  1 < base -> base ^ Z.of_nat k <= n ->
  (S k <= String.length (numeral base n))%nat.
Proof.
  intros Hb Hn. unfold numeral.
  assert (Hpos : 0 < base ^ Z.of_nat k) by (apply Z.pow_pos_nonneg; lia).
  assert (Hk : (k <= Z.to_nat (Z.log2 n))%nat).
  { assert (H2 : 2 ^ Z.of_nat k <= n).
    { apply Z.le_trans with (base ^ Z.of_nat k); [|exact Hn].
      apply Z.pow_le_mono_l. lia. }
    apply Z.log2_le_mono in H2. rewrite Z.log2_pow2 in H2 by lia. lia. }
  pose proof (digits_length_lower base (Z.to_nat (Z.log2 n)) k n EmptyString Hb Hn Hk) as H.
  cbn [String.length] in H. lia.
Qed.

Lemma int_max_str_digits_nat :
  Z.of_nat (S (Z.to_nat (int_max_str_digits - 1))) = int_max_str_digits.
Proof. unfold int_max_str_digits. lia. Qed.

(** The conversion to decimal raises exactly from [str_limit] on. *)
Lemma short_numeral_spec (v : Z) : short_numeral v = true <-> Z.abs v < str_limit.
Proof.
  unfold short_numeral, str_limit.
  pose proof int_max_str_digits_nat as Hk.
  split.
  - intros H. apply Z.leb_le in H.
    destruct (Z.lt_ge_cases (Z.abs v) (10 ^ int_max_str_digits)) as [Hlt | Hge];
      [exact Hlt | exfalso].
    rewrite <- Hk in Hge.
    apply numeral_length_lower in Hge; [|reflexivity].
    revert H Hge Hk. generalize (String.length (numeral 10 (Z.abs v))).
    generalize int_max_str_digits. intros. lia.
  - intros H. apply Z.leb_le. rewrite <- Hk in H.
    destruct (numeral_length 10 (Z.abs v) (Z.to_nat (int_max_str_digits - 1)))
      as [_ Hn]; [reflexivity | split; [apply Z.abs_nonneg | exact H] |].
    revert Hn Hk. generalize (String.length (numeral 10 (Z.abs v))).
    generalize int_max_str_digits. intros. lia.
Qed.

Lemma limit_above_words : 65536 <= str_limit.
Proof.
  unfold str_limit. apply Z.le_trans with (10 ^ 5); [discriminate|].
  apply Z.pow_le_mono_r; [reflexivity | discriminate].
Qed.

Lemma str_ok (v : Z) :
  Z.abs v < str_limit ->
  str v = Ok (if v <? 0 then String "-" (numeral 10 (- v)) else numeral 10 v).
Proof. intros H. unfold str. apply short_numeral_spec in H. now rewrite H. Qed.

Lemma str_raises (v : Z) : str_limit <= Z.abs v -> str v = Raise ValueError_digits.
Proof.
  intros H. unfold str. destruct (short_numeral v) eqn:E; [|reflexivity].
  apply short_numeral_spec in E. lia.
Qed.

Lemma format_5d_ok (v : Z) :
  Z.abs v < str_limit -> exists s, format_5d v = Ok s.
Proof. intros H. unfold format_5d. rewrite (str_ok _ H). simpl. eauto. Qed.

Lemma format_04x_length v : word v -> String.length (format_04x v) = 4%nat.
Proof.
  intros Hv. unfold word in Hv. unfold format_04x.
  destruct (Z.ltb_spec v 0) as [Hneg | _]; [lia|].
  apply rjust_length.
  destruct (numeral_length 16 v 3) as [_ Hn]; [lia | | exact Hn].
  change (16 ^ Z.of_nat 4) with 65536. lia.
Qed.

Lemma format_5d_length v :
  word v -> exists s, format_5d v = Ok s /\ String.length s = 5%nat.
Proof.
  intros Hv. unfold word in Hv. unfold format_5d.
  pose proof limit_above_words as Hlim.
  rewrite str_ok by lia. simpl. eexists. split; [reflexivity|].
  destruct (Z.ltb_spec v 0) as [Hneg | _]; [lia|].
  apply rjust_length.
  destruct (numeral_length 10 v 4) as [_ Hn]; [lia | | exact Hn].
  change (10 ^ Z.of_nat 5) with 100000. lia.
Qed.

Lemma str_digit_length v :
  0 <= v < 10 -> exists s, str v = Ok s /\ String.length s = 1%nat.
Proof.
  intros Hv. pose proof limit_above_words as Hlim.
  rewrite str_ok by lia. eexists. split; [reflexivity|].
  destruct (Z.ltb_spec v 0) as [Hneg | _]; [lia|].
  destruct (numeral_length 10 v 0) as [Hlo Hhi]; [lia | | lia].
  change (10 ^ Z.of_nat 1) with 10. lia.
Qed.

End Numerals.

Section PrinterFacts.

(** Registers within the limit of the conversion: one line each. *)
Lemma print_regs_ok (regs : list Z) : forall reg,
  0 <= reg -> reg + len regs <= str_limit ->
  Forall (fun v => Z.abs v < str_limit) regs ->
  exists lines, print_regs reg regs = (lines, Ok tt) /\ length lines = length regs.
Proof.
  induction regs as [|v regs IH]; intros reg Hr Hlen Hb; simpl; [eauto|].
  apply Forall_cons in Hb as [Hv Hb]. unfold len in Hlen. simpl length in Hlen.
  rewrite str_ok by lia.
  destruct (format_5d_ok v Hv) as (s & ->).
  destruct (IH (reg + 1)) as (lines & -> & Hn); [lia | unfold len; lia | exact Hb |].
  eexists. split; [reflexivity|]. simpl. now rewrite Hn.
Qed.

Lemma append_group_nonempty (line group : string) :
  String.append line (String.append group " ") <> EmptyString.
Proof. destruct line; simpl; [destruct group|]; discriminate. Qed.

Lemma getitem_beyond (l : list Z) (i : Z) : len l <= i -> getitem l i = Raise IndexError.
Proof.
  intros Hi. unfold getitem, norm_index, in_range.
  assert (0 <= len l) by (unfold len; lia).
  destruct (Z.ltb_spec i 0); [lia|].
  destruct (Z.ltb_spec i (len l)); [lia|]. now rewrite andb_false_r.
Qed.

Lemma next_count_full (count : Z) :
  count mod 8 = 7 -> (count + 1) mod 8 = 0 /\ (count + 1) / 8 = count / 8 + 1.
Proof. intros H. Z.div_mod_to_equations. lia. Qed.

Lemma next_count_partial (count : Z) :
  count mod 8 <> 7 -> (count + 1) mod 8 <> 0 /\ (count + 1) / 8 = count / 8.
Proof. intros H. Z.div_mod_to_equations. lia. Qed.

(** All subscripts in range: no error, one line per full group of eight
    cells, and a line is left over exactly when the count stops inside a
    group. *)
Lemma print_memory_ok (memory : list Z) : forall (todo : nat) count line out,
  0 <= count -> count + Z.of_nat todo <= len memory ->
  (line = EmptyString <-> count mod 8 = 0) ->
  exists out' line',
    print_memory memory count todo line out = (out', Ok line') /\
    Z.of_nat (length out')
    = Z.of_nat (length out) + ((count + Z.of_nat todo) / 8 - count / 8) /\
    (line' = EmptyString <-> (count + Z.of_nat todo) mod 8 = 0).
Proof.
  induction todo as [|todo IH]; intros count line out Hc Hlen Hline.
  - exists out, line. simpl. rewrite Z.add_0_r. repeat split; try apply Hline. lia.
  - simpl print_memory.
    destruct (getitem_lookup memory count) as (w & -> & _); [lia|].
    destruct (Z.eqb_spec (count mod 8) 7) as [H7 | H7].
    + destruct (next_count_full count H7) as (Hm & Hd).
      destruct (IH (count + 1) EmptyString
                   (out ++ [String.append line (String.append (format_04x w) " ")]))
        as (out' & line' & E & Hout & Hl); [lia | lia | tauto |].
      exists out', line'. split; [exact E|].
      rewrite length_app in Hout. simpl in Hout.
      replace (count + 1 + Z.of_nat todo) with (count + Z.of_nat (S todo)) in * by lia.
      split; [lia | exact Hl].
    + destruct (next_count_partial count H7) as (Hm & Hd).
      destruct (IH (count + 1) (String.append line (String.append (format_04x w) " ")) out)
        as (out' & line' & E & Hout & Hl); [lia | lia | |].
      { split; [intros H; now apply append_group_nonempty in H | intros H; contradiction]. }
      exists out', line'. split; [exact E|].
      replace (count + 1 + Z.of_nat todo) with (count + Z.of_nat (S todo)) in * by lia.
      split; [lia | exact Hl].
Qed.

(** A count that runs beyond the memory: [IndexError] at the first cell
    that is not there, after the full lines before it. *)
Lemma print_memory_beyond (memory : list Z) : forall (todo : nat) count line out,
  0 <= count <= len memory -> len memory < count + Z.of_nat todo ->
  (line = EmptyString <-> count mod 8 = 0) ->
  exists out',
    print_memory memory count todo line out = (out', Raise IndexError) /\
    Z.of_nat (length out')
    = Z.of_nat (length out) + (len memory / 8 - count / 8).
Proof.
  induction todo as [|todo IH]; intros count line out Hc Hlen Hline; [lia|].
  simpl print_memory.
  destruct (Z.eq_dec count (len memory)) as [-> | Hne].
  - rewrite getitem_beyond by lia. exists out. split; [reflexivity | lia].
  - destruct (getitem_lookup memory count) as (w & -> & _); [lia|].
    destruct (Z.eqb_spec (count mod 8) 7) as [H7 | H7].
    + destruct (next_count_full count H7) as (Hm & Hd).
      destruct (IH (count + 1) EmptyString
                   (out ++ [String.append line (String.append (format_04x w) " ")]))
        as (out' & E & Hout); [lia | lia | tauto |].
      exists out'. split; [exact E|].
      rewrite length_app, Hd in Hout. simpl in Hout. lia.
    + destruct (next_count_partial count H7) as (Hm & Hd).
      destruct (IH (count + 1) (String.append line (String.append (format_04x w) " ")) out)
        as (out' & E & Hout); [lia | lia | |].
      { split; [intros H; now apply append_group_nonempty in H | intros H; contradiction]. }
      exists out'. split; [exact E|]. rewrite Hd in Hout. lia.
Qed.

End PrinterFacts.

Lemma print_state_within (pc : Z) (regs memory : list Z) (memquantity : Z) :
  Z.abs pc < str_limit ->
  Forall (fun v => Z.abs v < str_limit) regs -> len regs <= str_limit ->
  0 <= memquantity <= len memory ->
  snd (print_state pc regs memory memquantity) = Ok tt /\
  Z.of_nat (length (fst (print_state pc regs memory memquantity)))
  = 2 + len regs + (memquantity + 7) / 8.
Proof.
  intros Hpc Hregs Hn Hq. unfold print_state.
  destruct (format_5d_ok pc Hpc) as (pc_s & ->).
  destruct (print_regs_ok regs 0) as (lines & -> & Hlines); [lia | lia | exact Hregs |].
  destruct (print_memory_ok memory (Z.to_nat memquantity) 0 EmptyString [])
    as (out & line & -> & Hout & Hline); [lia | lia | easy |].
  simpl snd. split; [reflexivity|]. simpl fst.
  rewrite Z2Nat.id in Hout, Hline by lia. simpl in Hout.
  cbn [length app]. rewrite length_app, length_app, Hlines.
  assert (Hlast : Z.of_nat (length (match line with
                                    | EmptyString => []
                                    | String _ _ => [line]
                                    end))
                  = if (0 + memquantity) mod 8 =? 0 then 0 else 1).
  { destruct (Z.eqb_spec ((0 + memquantity) mod 8) 0) as [E | E].
    - apply Hline in E. now rewrite E.
    - destruct line; [exfalso; apply E; now apply Hline | reflexivity]. }
  unfold len. rewrite !Nat2Z.inj_succ, !Nat2Z.inj_add, Hout, Hlast.
  clear Hn Hpc Hregs.
  destruct ((0 + memquantity) mod 8 =? 0) eqn:E;
    [apply Z.eqb_eq in E | apply Z.eqb_neq in E];
    Z.div_mod_to_equations; lia.
Qed.

Lemma print_state_beyond (pc : Z) (regs memory : list Z) (memquantity : Z) :
  Z.abs pc < str_limit ->
  Forall (fun v => Z.abs v < str_limit) regs -> len regs <= str_limit ->
  len memory < memquantity ->
  snd (print_state pc regs memory memquantity) = Raise IndexError /\
  Z.of_nat (length (fst (print_state pc regs memory memquantity)))
  = 2 + len regs + len memory / 8.
Proof.
  intros Hpc Hregs Hn Hlen. unfold print_state.
  destruct (format_5d_ok pc Hpc) as (pc_s & ->).
  destruct (print_regs_ok regs 0) as (lines & -> & Hlines); [lia | lia | exact Hregs |].
  assert (0 <= len memory) by (unfold len; lia).
  destruct (print_memory_beyond memory (Z.to_nat memquantity) 0 EmptyString [])
    as (out & -> & Hout); [lia | lia | easy |].
  simpl snd. split; [reflexivity|]. simpl fst. simpl in Hout.
  cbn [length app]. rewrite length_app, Hlines.
  unfold len in *. rewrite !Nat2Z.inj_succ, !Nat2Z.inj_add, Hout.
  change (0 / 8) with 0. lia.
Qed.

Lemma print_state_pc_too_long (pc : Z) (regs memory : list Z) (memquantity : Z) :
  str_limit <= Z.abs pc ->
  print_state pc regs memory memquantity
  = (["Final state:"%string], Raise ValueError_digits).
Proof.
  intros Hpc. unfold print_state, format_5d. now rewrite (str_raises _ Hpc).
Qed.

Lemma words_below_limit (l : list Z) :
  words l -> Forall (fun v => Z.abs v < str_limit) l.
Proof.
  pose proof limit_above_words as Hlim.
  intros Hl. apply (Forall_impl _ _ _ Hl). intros v Hv. unfold word in Hv. lia.
Qed.

(** X16: how much [print_state] prints.  The pc and the registers being
    below [10 ** 4300] in absolute value (and the registers not more than
    that many), for a count of cells within the memory it raises nothing
    and prints the two header lines, one line per register and one line
    per started group of eight cells; for a count beyond the memory it
    raises [IndexError] after printing the header, the registers and only
    the full groups of eight that the memory holds.  A pc from
    [10 ** 4300] on in absolute value is not printed: the conversion raises
    [ValueError] after the title. *)
Theorem print_state_lines (pc : Z) (regs memory : list Z) (memquantity : Z) :
  (Z.abs pc < str_limit ->
   Forall (fun v => Z.abs v < str_limit) regs -> len regs <= str_limit ->
   0 <= memquantity ->
   (memquantity <= len memory ->
    snd (print_state pc regs memory memquantity) = Ok tt /\
    Z.of_nat (length (fst (print_state pc regs memory memquantity)))
    = 2 + len regs + (memquantity + 7) / 8) /\
   (len memory < memquantity ->
    snd (print_state pc regs memory memquantity) = Raise IndexError /\
    Z.of_nat (length (fst (print_state pc regs memory memquantity)))
    = 2 + len regs + len memory / 8)) /\
  (str_limit <= Z.abs pc ->
   print_state pc regs memory memquantity
   = (["Final state:"%string], Raise ValueError_digits)).
Proof.
  split; [|apply print_state_pc_too_long].
  intros Hpc Hregs Hn Hq. split; intros Hlen.
  - apply print_state_within; auto; lia.
  - now apply print_state_beyond.
Qed.

(** Ten cells: two lines; twenty cells of a memory of ten: the full line
    and the error. *)
Lemma print_state_lines_witness :
  let memory := [8325; 16385; 0; 0; 0; 0; 0; 0; 0; 1] in
  (snd (print_state 1 [0; 5] memory 10) = Ok tt /\
   Z.of_nat (length (fst (print_state 1 [0; 5] memory 10))) = 2 + 2 + 2) /\
  (snd (print_state 1 [0; 5] memory 20) = Raise IndexError /\
   Z.of_nat (length (fst (print_state 1 [0; 5] memory 20))) = 2 + 2 + 1).
Proof.
  intros memory.
  pose proof limit_above_words as Hlim.
  assert (Hregs : Forall (fun v => Z.abs v < str_limit) [0; 5]).
  { apply words_below_limit. repeat constructor; unfold word; lia. }
  destruct (print_state_lines 1 [0; 5] memory 10) as [H _].
  destruct (print_state_lines 1 [0; 5] memory 20) as [H' _].
  split.
  - apply H; [simpl; lia | exact Hregs | unfold len; simpl; lia | lia |].
    unfold len. simpl. lia.
  - apply H'; [simpl; lia | exact Hregs | unfold len; simpl; lia | lia |].
    unfold len. simpl. lia.
Defined.

(** ** The state at the break *)

(** Whatever the memory holds, the registers of a run that started on
    16-bit registers hold 16-bit values, and after a round so does the
    pc. *)
Lemma loop_body_regs m :
  wf_machine m -> words (m_regs m) ->
  exists o, loop_body m = Ok o /\
    wf_machine (outcome_machine o) /\
    0 <= m_pc (outcome_machine o) < 65536 /\
    words (m_regs (outcome_machine o)).
Proof.
  intros (Hr & Hm & Hz) Wr. unfold loop_body.
  destruct (simulation_ok _ _ Hr Hm (m_pc m))
    as (pc' & regs' & memory' & E & Hpc' & Lr & Lm & Z0 & _).
  destruct (simulation_frame_ok _ _ Hr Hm (m_pc m))
    as (pc2 & regs2 & memory2 & E2 & Hframe).
  rewrite E in E2. injection E2 as <- <- <-. rewrite E. simpl.
  assert (Wr' : words regs').
  { destruct Hframe as [(-> & _) | [(_ & d & v & Hd & Hv & ->) | (-> & _)]];
      try exact Wr.
    apply Forall_insert; assumption. }
  assert (Hinv : wf_machine (Machine pc' regs' memory') /\
                 0 <= pc' < 65536 /\ words regs').
  { repeat split; simpl; auto; try lia; congruence. }
  destruct (pc' =? m_pc m); [|eexists; split; [reflexivity | exact Hinv]].
  destruct (getitem_lookup memory' (m_pc m mod 8191)) as (w & -> & _).
  { rewrite Lm, Hm. pose proof (Z.mod_pos_bound (m_pc m) 8191).
    unfold MEM_SIZE. simpl. lia. }
  simpl. destruct (Z.shiftr w 13 =? 2); eexists; (split; [reflexivity | exact Hinv]).
Qed.

Lemma run_loop_break_regs fuel : forall m m',
  wf_machine m -> words (m_regs m) ->
  run_loop fuel m = Ok (Break m') ->
  wf_machine m' /\ 0 <= m_pc m' < 65536 /\ words (m_regs m').
Proof.
  induction fuel as [|fuel IH]; intros m m' Hwf Wr; simpl; [discriminate|].
  destruct (loop_body_regs m Hwf Wr) as ([m1 | m1] & -> & Hwf1 & Hpc1 & Wr1); simpl.
  - intros [= <-]. auto.
  - intros H. exact (IH m1 m' Hwf1 Wr1 H).
Qed.

Lemma final_report_ok (m : machine) :
  wf_machine m -> 0 <= m_pc m < 65536 -> words (m_regs m) ->
  snd (final_report m) = Ok tt /\ length (fst (final_report m)) = 26%nat.
Proof.
  intros (Hr & Hm & _) Hpc Wr. unfold final_report.
  pose proof limit_above_words as Hlim.
  destruct (print_state_within (m_pc m) (m_regs m) (m_memory m) 128) as [Hok Hn].
  - lia.
  - now apply words_below_limit.
  - rewrite Hr. unfold NUM_REGS. lia.
  - rewrite Hm. unfold MEM_SIZE. simpl. lia.
  - split; [exact Hok|]. rewrite Hr in Hn. unfold NUM_REGS in Hn.
    change ((128 + 7) / 8) with 16 in Hn. lia.
Qed.

(** X17: what [main] prints on halt.  Whatever the program, when the run
    loop breaks, printing the final machine with 128 cells raises nothing
    and gives 26 lines: the title, the pc, 8 registers and 16 lines of
    memory. *)
Theorem final_report_26_lines (mem : list Z) (fuel : nat) (m : machine) :
  len mem = MEM_SIZE ->
  run_loop fuel (boot mem) = Ok (Break m) ->
  snd (final_report m) = Ok tt /\ length (fst (final_report m)) = 26%nat.
Proof.
  intros Hm Hrun.
  destruct (run_loop_break_regs fuel (boot mem) m) as (Hwf & Hpc & Wr);
    [now apply wf_boot | apply wordsb_words; reflexivity | exact Hrun |].
  now apply final_report_ok.
Qed.

Lemma final_report_26_lines_witness :
  let mem := <[1%nat := 16385]> (<[0%nat := 8325]> initial_memory) in
  let m := Machine 1 (<[1%nat := 5]> initial_regs) mem in
  snd (final_report m) = Ok tt /\ length (fst (final_report m)) = 26%nat.
Proof.
  intros mem m.
  apply (final_report_26_lines mem 2 m); vm_compute; reflexivity.
Defined.

(** ** Column widths *)

Section Widths.

Lemma print_regs_width (regs : list Z) : forall reg,
  0 <= reg -> reg + len regs <= 10 -> words regs ->
  exists lines,
    print_regs reg regs = (lines, Ok tt) /\
    length lines = length regs /\
    Forall (fun l => String.length l = 9%nat) lines.
Proof.
  induction regs as [|v regs IH]; intros reg Hr Hlen Hw; simpl.
  { exists []. repeat split. constructor. }
  apply Forall_cons in Hw as [Hv Hw]. unfold len in Hlen. simpl length in Hlen.
  destruct (str_digit_length reg) as (name & -> & Hname); [lia|].
  destruct (format_5d_length v Hv) as (value & -> & Hvalue).
  destruct (IH (reg + 1)) as (lines & -> & Hn & Hwidth);
    [lia | unfold len; lia | exact Hw |].
  eexists. split; [reflexivity|]. split; [simpl; now rewrite Hn|].
  constructor; [|exact Hwidth].
  simpl. rewrite append_length. simpl. rewrite Hname, Hvalue. reflexivity.
Qed.

Lemma print_memory_width (memory : list Z) : forall (todo : nat) count line out,
  words memory -> 0 <= count -> count + Z.of_nat todo <= len memory ->
  Z.of_nat (String.length line) = 5 * (count mod 8) ->
  Forall (fun l => String.length l = 40%nat) out ->
  exists out' line',
    print_memory memory count todo line out = (out', Ok line') /\
    Forall (fun l => String.length l = 40%nat) out' /\
    Z.of_nat (String.length line') = 5 * ((count + Z.of_nat todo) mod 8).
Proof.
  induction todo as [|todo IH]; intros count line out Hw Hc Hlen Hline Hout.
  - exists out, line. simpl. rewrite Z.add_0_r. auto.
  - simpl print_memory.
    destruct (getitem_lookup memory count) as (w & Ew & _); [lia|].
    rewrite Ew. pose proof (getitem_word _ _ _ Hw Ew) as Hword.
    assert (Hgroup : Z.of_nat (String.length
                       (String.append line (String.append (format_04x w) " ")))
                     = 5 * (count mod 8) + 5).
    { rewrite !append_length, format_04x_length by assumption. simpl. lia. }
    replace (count + Z.of_nat (S todo)) with (count + 1 + Z.of_nat todo) by lia.
    destruct (Z.eqb_spec (count mod 8) 7) as [H7 | H7].
    + destruct (next_count_full count H7) as (Hm & _).
      apply IH; [assumption | lia | lia | rewrite Hm; reflexivity |].
      apply Forall_app. split; [exact Hout|]. constructor; [|constructor].
      rewrite H7 in Hgroup. lia.
    + apply IH; [assumption | lia | lia | | exact Hout].
      rewrite Hgroup. clear - H7 Hc. Z.div_mod_to_equations. lia.
Qed.

End Widths.

(** X18: the printed state is a table.  For a 16-bit pc, at most ten
    registers and a count of cells that is a multiple of 8 within the
    memory, all holding 16-bit values, [print_state] prints the title, then
    the pc line and one line per register, each of 9 characters, then the
    memory lines, each of 40 characters (eight groups of four hexadecimal
    digits and a space). *)
Theorem print_state_column_widths (pc : Z) (regs memory : list Z) (memquantity : Z) :
  word pc -> len regs <= 10 -> wordsb regs = true -> wordsb memory = true ->
  0 <= memquantity <= len memory -> memquantity mod 8 = 0 ->
  exists reg_lines mem_lines,
    fst (print_state pc regs memory memquantity)
    = "Final state:"%string :: reg_lines ++ mem_lines /\
    Z.of_nat (length reg_lines) = 1 + len regs /\
    Forall (fun l => String.length l = 9%nat) reg_lines /\
    Z.of_nat (length mem_lines) = memquantity / 8 /\
    Forall (fun l => String.length l = 40%nat) mem_lines.
Proof.
  intros Hpc Hlen Wr Wm Hq Hq8.
  apply wordsb_words in Wr, Wm. unfold print_state.
  destruct (format_5d_length pc Hpc) as (pc_s & -> & Hpc_s).
  destruct (print_regs_width regs 0) as (lines & -> & Hlines & Hwidth);
    [lia | lia | exact Wr |].
  destruct (print_memory_width memory (Z.to_nat memquantity) 0 EmptyString [] Wm)
    as (out & line & E & Hout & Hline); [lia | lia | reflexivity | constructor |].
  destruct (print_memory_ok memory (Z.to_nat memquantity) 0 EmptyString [])
    as (out2 & line2 & E2 & Hcount & _); [lia | lia | easy |].
  rewrite E in E2. injection E2 as <- <-. rewrite E. simpl fst.
  rewrite Z2Nat.id, Z.add_0_l in Hline, Hcount by lia.
  rewrite Hq8 in Hline. destruct line; [|simpl in Hline; lia].
  exists (String tab (String.append "pc=" pc_s) :: lines), out.
  rewrite app_nil_r. split; [reflexivity|]. split; [|split; [|split]].
  - simpl length. rewrite Hlines. unfold len. lia.
  - constructor; [|exact Hwidth].
    simpl. now rewrite Hpc_s.
  - rewrite Hcount. change (0 / 8) with 0.
    change (Z.of_nat (length (@nil string))) with 0.
    now rewrite Z.add_0_l, Z.sub_0_r.
  - exact Hout.
Qed.

Lemma print_state_column_widths_witness :
  let memory := [8325; 16385; 0; 65535; 0; 0; 0; 0; 0; 1] in
  exists reg_lines mem_lines,
    fst (print_state 1 [0; 5] memory 8)
    = "Final state:"%string :: reg_lines ++ mem_lines /\
    Z.of_nat (length reg_lines) = 1 + len [0; 5] /\
    Forall (fun l => String.length l = 9%nat) reg_lines /\
    Z.of_nat (length mem_lines) = 8 / 8 /\
    Forall (fun l => String.length l = 40%nat) mem_lines.
Proof.
  intros memory.
  apply (print_state_column_widths 1 [0; 5] memory 8);
    [unfold word; lia | vm_compute; discriminate | reflexivity | reflexivity
    | vm_compute; split; discriminate | reflexivity].
Defined.

(** ** The whole program *)

Lemma load_error_is_value_error (lines : list (list Z)) (mem : list Z) (e : exn) :
  snd (load_machine_code lines mem) = Raise e ->
  e = ValueError_parse \/ e = ValueError_digits \/ e = ValueError_literal \/
  e = ValueError_sequence \/ e = ValueError_capacity.
Proof.
  intros H.
  destruct (load_lines_error lines 0 mem e H) as (i & line & _ & Hby & _).
  destruct e; simpl in Hby; auto 6; contradiction.
Qed.

(** X11: where the program can raise.  [main] raises exactly in these
    cases: the command line is refused ([SystemExit]); the file cannot be
    opened ([OSError]); the loader raises on a line of the file, with one of
    its five [ValueError]s; the file fails to read on after lines that all
    load; the loop has broken and the standard output refuses the final
    state.  So the run loop raises nothing, however long it runs, and
    neither does the formatting of the final state. *)
Theorem main_program_raises (s : startup) (fuel : nat) (e : exn) :
  (main_program s fuel = Raise e <->
   (s = ParseArgsExits /\ e = SystemExit) \/
   (s = OpenRaises /\ e = OSError) \/
   exists lines failure print_failure,
     s = FileYields lines failure print_failure /\
     (snd (load_machine_code lines initial_memory) = Raise e \/
      (snd (load_machine_code lines initial_memory) = Ok tt /\
       failure = Some e) \/
      (snd (load_machine_code lines initial_memory) = Ok tt /\
       failure = None /\
       (exists m, run_loop fuel (boot (fst (load_machine_code lines initial_memory)))
                  = Ok (Break m)) /\
       print_failure = Some e))) /\
  (forall lines, snd (load_machine_code lines initial_memory) = Raise e ->
     e = ValueError_parse \/ e = ValueError_digits \/ e = ValueError_literal \/
     e = ValueError_sequence \/ e = ValueError_capacity).
Proof.
  split; [|intros lines; apply load_error_is_value_error].
  destruct s as [| | lines failure print_failure]; simpl.
  - split.
    + intros [= <-]. auto.
    + intros [(_ & ->) | [(H & _) | (l & f & p & H & _)]];
        [reflexivity | discriminate H | discriminate H].
  - split.
    + intros [= <-]. auto.
    + intros [(H & _) | [(_ & ->) | (l & f & p & H & _)]];
        [discriminate H | reflexivity | discriminate H].
  - pose proof (load_len lines initial_memory) as Hlen.
    destruct (load_machine_code lines initial_memory) as [mem [[]|e']] eqn:Hload;
      simpl in Hlen.
    2: { split.
         - intros [= ->]. right. right. exists lines, failure, print_failure.
           split; [reflexivity|]. rewrite Hload. auto.
         - intros [(H & _) | [(H & _) | (l & f & p & H & Hc)]];
             [discriminate H | discriminate H |].
           injection H as <- <- <-. rewrite Hload in Hc. simpl in Hc.
           destruct Hc as [Hc | [(Hc & _) | (Hc & _)]];
             [congruence | discriminate Hc | discriminate Hc]. }
    assert (Hm : len mem = MEM_SIZE) by (rewrite Hlen; reflexivity).
    destruct failure as [ef|].
    { split.
      - intros [= ->]. right. right. exists lines, (Some e), print_failure.
        split; [reflexivity|]. rewrite Hload. auto.
      - intros [(H & _) | [(H & _) | (l & f & p & H & Hc)]];
          [discriminate H | discriminate H |].
        injection H as <- <- <-. rewrite Hload in Hc. simpl in Hc.
        destruct Hc as [Hc | [(_ & Hc) | (_ & Hc & _)]];
          [discriminate Hc | congruence | discriminate Hc]. }
    destruct (run_loop_wf fuel (boot mem) (wf_boot mem Hm)) as (o & Eo & _).
    rewrite Eo. destruct o as [m | m].
    + destruct (run_loop_break_regs fuel (boot mem) m) as (Hwf & Hpc & Wr);
        [now apply wf_boot | apply wordsb_words; reflexivity | exact Eo |].
      destruct (final_report_ok m Hwf Hpc Wr) as (Hok & _).
      destruct (final_report m) as [output r]. simpl in Hok. subst r.
      destruct print_failure as [ep|].
      * split.
        -- intros [= ->]. right. right. exists lines, None, (Some e).
           split; [reflexivity|]. rewrite Hload. simpl. rewrite Eo. eauto 8.
        -- intros [(H & _) | [(H & _) | (l & f & p & H & Hc)]];
             [discriminate H | discriminate H |].
           injection H as <- <- <-. rewrite Hload in Hc. simpl in Hc.
           destruct Hc as [Hc | [(_ & Hc) | (_ & _ & _ & Hc)]];
             [discriminate Hc | discriminate Hc | congruence].
      * split; [discriminate|].
        intros [(H & _) | [(H & _) | (l & f & p & H & Hc)]];
          [discriminate H | discriminate H |].
        injection H as <- <- <-. rewrite Hload in Hc. simpl in Hc.
        destruct Hc as [Hc | [(_ & Hc) | (_ & _ & _ & Hc)]]; discriminate Hc.
    + split; [discriminate|].
      intros [(H & _) | [(H & _) | (l & f & p & H & Hc)]];
        [discriminate H | discriminate H |].
      injection H as <- <- <-. rewrite Hload in Hc. simpl in Hc. rewrite Eo in Hc.
      destruct Hc as [Hc | [(_ & Hc) | (_ & _ & (m' & Hc) & _)]]; discriminate Hc.
Qed.

(** A missing file, and a file whose first line does not parse. *)
Lemma main_program_raises_witness :
  main_program OpenRaises 7 = Raise OSError /\
  main_program (FileYields [text "ram[0] = 16'bxyz;"] None None) 7
  = Raise ValueError_parse.
Proof.
  split.
  - apply (main_program_raises OpenRaises 7 OSError). right. left. auto.
  - apply (main_program_raises (FileYields [text "ram[0] = 16'bxyz;"] None None)
                               7 ValueError_parse).
    right. right. exists [text "ram[0] = 16'bxyz;"], None, None.
    split; [reflexivity|]. left. vm_compute. reflexivity.
Defined.

(** The end-to-end scenario, printed: ADDI $1,$0,5 ; J 1 gives 26 lines,
    the first four of them as below. *)
Lemma main_program_addi_then_halt :
  exists output,
    main_program
      (FileYields [ram_line 0 "0010000010000101"; ram_line 1 "0100000000000001"]
                  None None) 2
    = Ok (Finished output) /\
    length output = 26%nat /\
    take 4 output = ["Final state:"; String tab "pc=    1";
                     String tab "$0=    0"; String tab "$1=    5"]%string.
Proof.
  eexists. split; [vm_compute; reflexivity|]. split; reflexivity.
Qed.
